(** * Rollback engine of helm (package [action], file rollback.go)

    A shallow embedding of [Rollback.RunWithResult], [prepareRollback] and
    [performRollback], and the properties of the rollback protocol; then
    of the package [diffutil], which writes the files of a diff.

    Modelling conventions.

    - A Go [error] is modelled by its [Error()] text; [nil] is [None].
    - A Go [int] is a 64-bit two's-complement integer: a [Z] with the
      wrap-around of [+] and [-] written out ([int_add], [int_sub]).
    - The engine talks to three collaborators whose code is not part of the
      files under study: the cluster client ([kube.Interface]), the release
      store ([storage.Storage]) and the helpers of the [action] package
      (hooks, pod recreation, clock).  Each is an interface over an abstract
      world [W]: a method takes the world and gives back its results and the
      next world.  Nothing is assumed about what they answer.
    - Every method call the engine makes is recorded, with its arguments and
      its answer, in a trace of [Call]s.
    - [*release.Release] values are records; the two objects the engine
      mutates in place ([currentRelease], [targetRelease]) are threaded
      explicitly, and the store receives and returns snapshots.  A pointer
      returned without error by the store or the client is not nil.
    - [cfg.Log] only prints; it is left out. *)

From Stdlib Require Import ZArith List String Ascii Bool Lia DecimalString.
Import ListNotations.
Open Scope string_scope.
Open Scope Z_scope.

(** ** Go runtime: errors, strings, int *)

Definition error := string.

(** [errors.Wrap(err, msg).Error()] of github.com/pkg/errors. *)
Definition errors_Wrap (err : error) (msg : string) : error :=
  msg ++ ": " ++ err.

(** [strings.Join(elems, sep)]. *)
Fixpoint strings_Join (elems : list string) (sep : string) : string :=
  match elems with
  | [] => ""
  | [e] => e
  | e :: rest => e ++ sep ++ strings_Join rest sep
  end.

(** [strings.Contains(s, substr)]. *)
Fixpoint strings_Contains (s substr : string) : bool :=
  String.prefix substr s ||
  match s with
  | EmptyString => false
  | String _ s' => strings_Contains s' substr
  end.

Definition int_min : Z := - 2 ^ 63.
Definition int_max : Z := 2 ^ 63 - 1.

Definition int_wrap (z : Z) : Z := (z + 2 ^ 63) mod 2 ^ 64 - 2 ^ 63.
Definition int_add (a b : Z) : Z := int_wrap (a + b).
Definition int_sub (a b : Z) : Z := int_wrap (a - b).

(** The verb [%d] of [fmt.Sprintf] on an [int]. *)
Definition fmt_d (z : Z) : string := NilZero.string_of_int (Z.to_int z).

Definition Duration := Z.
Definition Time := Z.

(** ** Package [release] *)

Module release.

(** [release.Status] is a string type; the four values the engine writes
    are named, any other value is [StatusOther]. *)
Inductive Status :=
| StatusDeployed
| StatusSuperseded
| StatusFailed
| StatusPendingRollback
| StatusOther (s : string).

Inductive HookEvent :=
| HookPreRollback
| HookPostRollback.

(** Charts, configurations and hooks are held by reference. *)
Definition ChartRef := string.
Definition ConfigRef := string.
Definition HookRef := string.

Record Info := mkInfo {
  FirstDeployed : Time;
  LastDeployed : Time;
  Description : string;
  Status_ : Status;
  Notes : string
}.

Record Release := mkRelease {
  Name : string;
  Info_ : Info;
  Chart : ChartRef;
  Config : ConfigRef;
  Manifest : string;
  Hooks : list HookRef;
  Version : Z;
  Namespace : string
}.

Definition with_info (r : Release) (i : Info) : Release :=
  mkRelease (Name r) i (Chart r) (Config r) (Manifest r) (Hooks r)
            (Version r) (Namespace r).

(** [r.Info.Status = s] *)
Definition set_status (r : Release) (s : Status) : Release :=
  with_info r
    (mkInfo (FirstDeployed (Info_ r)) (LastDeployed (Info_ r))
            (Description (Info_ r)) s (Notes (Info_ r))).

(** [r.Info.Description = d] *)
Definition set_description (r : Release) (d : string) : Release :=
  with_info r
    (mkInfo (FirstDeployed (Info_ r)) (LastDeployed (Info_ r))
            d (Status_ (Info_ r)) (Notes (Info_ r))).

(** [r.Info.LastDeployed = t] *)
Definition set_last_deployed (r : Release) (t : Time) : Release :=
  with_info r
    (mkInfo (FirstDeployed (Info_ r)) t
            (Description (Info_ r)) (Status_ (Info_ r)) (Notes (Info_ r))).

(** The method [SetStatus(status, msg)] of a release. *)
Definition SetStatus (r : Release) (s : Status) (msg : string) : Release :=
  set_description (set_status r s) msg.

Definition status (r : Release) : Status := Status_ (Info_ r).

Definition is_deployed (r : Release) : bool :=
  match status r with StatusDeployed => true | _ => false end.

End release.

(** ** Package [kube] *)

Module kube.

Definition Info := string.
Definition ResourceList := list Info.

Record Result := mkResult {
  Created : ResourceList;
  Updated : ResourceList;
  Deleted : ResourceList
}.

(** [kube.Interface], together with the optional
    [kube.ServerDryRunnableInterface].  The world holds the client that
    [cfg.KubeClient] currently refers to: [ServerDryRunnable] is the type
    assertion on it, [WithServerDryRun] installs the dry-run client. *)
Class Interface (W : Type) := {
  ServerDryRunnable : W -> bool;
  WithServerDryRun : W -> W;
  IsReachable : W -> option error * W;
  Build : string -> bool -> W -> (ResourceList + error) * W;
  Update : ResourceList -> ResourceList -> bool -> W ->
           (Result * option error) * W;
  Wait : ResourceList -> Duration -> W -> option error * W;
  WaitWithJobs : ResourceList -> Duration -> W -> option error * W;
  (** the slice of errors is [None] when it is nil *)
  Delete : ResourceList -> W -> (Result * option (list error)) * W
}.

End kube.

(** ** Package [storage] *)

Module storage.

(** The methods of [*storage.Storage] the engine calls, and the write of
    its [MaxHistory] field. *)
Class Storage (W : Type) := {
  SetMaxHistory : Z -> W -> W;
  Last : string -> W -> (release.Release + error) * W;
  Get : string -> Z -> W -> (release.Release + error) * W;
  Create : release.Release -> W -> option error * W;
  Update : release.Release -> W -> option error * W;
  DeployedAll : string -> W -> (list release.Release * option error) * W
}.

End storage.

(** ** What the engine uses of the rest of package [action] and of the
       libraries *)

Module helpers.

Class Helpers (W : Type) := {
  (** [chartutil.ValidateReleaseName(name) == nil] *)
  ValidateReleaseName : string -> bool;
  errInvalidRevision : error;
  (** the verb [%q] of [fmt.Sprintf] on a string *)
  fmt_q : string -> string;
  (** [cfg.execHook(rl, hook, timeout)] *)
  execHook : release.Release -> release.HookEvent -> Duration -> W ->
             option error * W;
  (** [recreate(cfg, resources)] *)
  recreate : kube.ResourceList -> W -> option error * W;
  (** [helmtime.Now()] *)
  Now : W -> Time * W
}.

End helpers.

(** ** The trace of calls *)

Inductive Call :=
| CWithServerDryRun
| CIsReachable (err : option error)
| CBuild (manifest : string) (validate : bool) (res : kube.ResourceList + error)
| CKubeUpdate (original target : kube.ResourceList) (force : bool)
              (res : kube.Result) (err : option error)
| CWait (target : kube.ResourceList) (timeout : Duration) (err : option error)
| CWaitWithJobs (target : kube.ResourceList) (timeout : Duration)
                (err : option error)
| CDelete (resources : kube.ResourceList) (res : kube.Result)
          (errs : option (list error))
| CSetMaxHistory (n : Z)
| CLast (name : string) (res : release.Release + error)
| CGet (name : string) (version : Z) (res : release.Release + error)
| CCreate (rls : release.Release) (err : option error)
| CUpdate (rls : release.Release) (err : option error)
| CDeployedAll (name : string) (res : list release.Release) (err : option error)
| CExecHook (rl : release.Release) (hook : release.HookEvent)
            (timeout : Duration) (err : option error)
| CRecreate (resources : kube.ResourceList) (err : option error)
| CNow (t : Time).

Definition is_store_write (c : Call) : bool :=
  match c with
  | CCreate _ _ | CUpdate _ _ => true
  | _ => false
  end.

Definition is_IsReachable (c : Call) : bool :=
  match c with
  | CIsReachable _ => true
  | _ => false
  end.

Definition is_Delete (c : Call) : bool :=
  match c with
  | CDelete _ _ _ => true
  | _ => false
  end.

(** Calls that change or wait on the cluster, run hooks or do the
    supersession bookkeeping. *)
Definition is_after_apply (c : Call) : bool :=
  match c with
  | CWait _ _ _ | CWaitWithJobs _ _ _ | CExecHook _ _ _ _
  | CDeployedAll _ _ _ | CRecreate _ _ | CDelete _ _ _ => true
  | _ => false
  end.

(** Calls on the cluster client other than the pre-flight ones. *)
Definition is_cluster_work (c : Call) : bool :=
  match c with
  | CBuild _ _ _ | CKubeUpdate _ _ _ _ _ | CWait _ _ _ | CWaitWithJobs _ _ _
  | CDelete _ _ _ | CExecHook _ _ _ _ | CRecreate _ _ => true
  | _ => false
  end.

Definition is_Update (c : Call) : bool :=
  match c with
  | CUpdate _ _ => true
  | _ => false
  end.

(** The error a wait call answered. *)
Definition wait_error (c : Call) : option error :=
  match c with
  | CWait _ _ err | CWaitWithJobs _ _ err => err
  | _ => None
  end.

Definition apply_or_wait_failed (c : Call) : bool :=
  match c with
  | CKubeUpdate _ _ _ _ (Some _) | CWait _ _ (Some _)
  | CWaitWithJobs _ _ (Some _) => true
  | _ => false
  end.

Definition none_of (p : Call -> bool) (tr : list Call) : Prop :=
  forallb (fun c => negb (p c)) tr = true.

(** ** The monad of the engine: world passing, with the calls made *)

Definition M (W A : Type) : Type := W -> A * W * list Call.

Definition ret {W A} (a : A) : M W A := fun w => (a, w, []).

Definition bind {W A B} (m : M W A) (f : A -> M W B) : M W B :=
  fun w =>
    let '(a, w1, t1) := m w in
    let '(b, w2, t2) := f a w1 in
    (b, w2, (t1 ++ t2)%list).

Notation "x <- m ;; k" := (bind m (fun x => k))
  (at level 61, m at next level, right associativity).
Notation "m ;;; k" := (bind m (fun _ => k))
  (at level 61, right associativity).

Definition result_of {W A} (x : A * W * list Call) : A := fst (fst x).
Definition world_of {W A} (x : A * W * list Call) : W := snd (fst x).
Definition calls_of {W A} (x : A * W * list Call) : list Call := snd x.

(** A method call: run the method on the world, record the call. *)
Definition call {W A} (f : W -> A * W) (c : A -> Call) : M W A :=
  fun w => let '(a, w') := f w in (a, w', [c a]).

(** ** The [Rollback] action *)

Record Rollback := mkRollback {
  Version : Z;
  Timeout : Duration;
  Wait : bool;
  WaitForJobs : bool;
  DisableHooks : bool;
  DryRun : bool;
  Recreate : bool;
  Force : bool;
  CleanupOnFail : bool;
  MaxHistory : Z;
  ServerDryRun : bool
}.

(** What [performRollback] leaves behind: the two release objects as they
    are on return, and its three results ([ret_release] tells whether the
    first result is [targetRelease] or nil). *)
Record Performed := mkPerformed {
  currentRelease' : release.Release;
  targetRelease' : release.Release;
  ret_release : bool;
  ret_result : option kube.Result;
  ret_err : option error
}.

Section Engine.

Context {W : Type}.
Context {KubeClient : kube.Interface W}.
Context {Releases : storage.Storage W}.
Context {Action : helpers.Helpers W}.

(** *** The calls on [r.cfg.KubeClient] *)

Definition KubeClient_WithServerDryRun : M W unit :=
  call (fun w => (tt, kube.WithServerDryRun w)) (fun _ => CWithServerDryRun).

Definition KubeClient_IsReachable : M W (option error) :=
  call kube.IsReachable CIsReachable.

Definition KubeClient_Build (manifest : string) (validate : bool)
  : M W (kube.ResourceList + error) :=
  call (kube.Build manifest validate) (CBuild manifest validate).

Definition KubeClient_Update (original target : kube.ResourceList)
           (force : bool) : M W (kube.Result * option error) :=
  call (kube.Update original target force)
       (fun a => CKubeUpdate original target force (fst a) (snd a)).

Definition KubeClient_Wait (target : kube.ResourceList) (timeout : Duration)
  : M W (option error) :=
  call (kube.Wait target timeout) (CWait target timeout).

Definition KubeClient_WaitWithJobs (target : kube.ResourceList)
           (timeout : Duration) : M W (option error) :=
  call (kube.WaitWithJobs target timeout) (CWaitWithJobs target timeout).

Definition KubeClient_Delete (resources : kube.ResourceList)
  : M W (kube.Result * option (list error)) :=
  call (kube.Delete resources)
       (fun a => CDelete resources (fst a) (snd a)).

(** *** The calls on [r.cfg.Releases] *)

Definition Releases_SetMaxHistory (n : Z) : M W unit :=
  call (fun w => (tt, storage.SetMaxHistory n w)) (fun _ => CSetMaxHistory n).

Definition Releases_Last (name : string) : M W (release.Release + error) :=
  call (storage.Last name) (CLast name).

Definition Releases_Get (name : string) (version : Z)
  : M W (release.Release + error) :=
  call (storage.Get name version) (CGet name version).

Definition Releases_Create (rls : release.Release) : M W (option error) :=
  call (storage.Create rls) (CCreate rls).

Definition Releases_Update (rls : release.Release) : M W (option error) :=
  call (storage.Update rls) (CUpdate rls).

Definition Releases_DeployedAll (name : string)
  : M W (list release.Release * option error) :=
  call (storage.DeployedAll name)
       (fun a => CDeployedAll name (fst a) (snd a)).

(** *** The helpers of the package *)

Definition cfg_execHook (rl : release.Release) (hook : release.HookEvent)
           (timeout : Duration) : M W (option error) :=
  call (helpers.execHook rl hook timeout) (CExecHook rl hook timeout).

Definition recreate (resources : kube.ResourceList) : M W (option error) :=
  call (helpers.recreate resources) (CRecreate resources).

Definition helmtime_Now : M W Time :=
  call helpers.Now CNow.

(** Modelled from the spec: [cfg.recordRelease] is defined outside the files
    under study; the spec says the records are persisted via [Update], and
    the call sites use no result of it. *)
Definition cfg_recordRelease (rl : release.Release) : M W unit :=
  Releases_Update rl ;;; ret tt.

(** *** prepareRollback *)

Definition prepareRollback (r : Rollback) (name : string)
  : M W (release.Release * release.Release + error) :=
  if negb (helpers.ValidateReleaseName (W := W) name) then
    ret (inr ("prepareRollback: Release name is invalid: " ++ name))
  else if Version r <? 0 then
    ret (inr (helpers.errInvalidRevision (W := W)))
  else
    last <- Releases_Last name ;;
    match last with
    | inr err => ret (inr err)
    | inl currentRelease =>
      let previousVersion :=
        if Version r =? 0
        then int_sub (release.Version currentRelease) 1
        else Version r in
      got <- Releases_Get name previousVersion ;;
      match got with
      | inr err => ret (inr err)
      | inl previousRelease =>
        now <- helmtime_Now ;;
        let targetRelease :=
          {| release.Name := name;
             release.Namespace := release.Namespace currentRelease;
             release.Chart := release.Chart previousRelease;
             release.Config := release.Config previousRelease;
             release.Info_ :=
               {| release.FirstDeployed :=
                    release.FirstDeployed (release.Info_ currentRelease);
                  release.LastDeployed := now;
                  release.Status_ := release.StatusPendingRollback;
                  release.Notes :=
                    release.Notes (release.Info_ previousRelease);
                  release.Description :=
                    "Rollback to " ++ fmt_d previousVersion |};
             release.Version := int_add (release.Version currentRelease) 1;
             release.Manifest := release.Manifest previousRelease;
             release.Hooks := release.Hooks previousRelease |} in
        ret (inl (currentRelease, targetRelease))
      end
    end.

(** *** performRollback *)

(** The loop over [deployed]. *)
Fixpoint supersede (deployed : list release.Release) : M W unit :=
  match deployed with
  | [] => ret tt
  | rel :: rest =>
    cfg_recordRelease (release.set_status rel release.StatusSuperseded) ;;;
    supersede rest
  end.

Definition performRollback (r : Rollback)
           (currentRelease targetRelease : release.Release) : M W Performed :=
  if DryRun r then
    ret (mkPerformed currentRelease targetRelease true None None)
  else
    cur <- KubeClient_Build (release.Manifest currentRelease) false ;;
    match cur with
    | inr err =>
      ret (mkPerformed currentRelease targetRelease true None
             (Some (errors_Wrap err
                "unable to build kubernetes objects from current release manifest")))
    | inl current =>
    tgt <- KubeClient_Build (release.Manifest targetRelease) false ;;
    match tgt with
    | inr err =>
      ret (mkPerformed currentRelease targetRelease true None
             (Some (errors_Wrap err
                "unable to build kubernetes objects from new release manifest")))
    | inl target =>
    (* pre-rollback hooks *)
    pre <- (if negb (ServerDryRun r) then
              if negb (DisableHooks r) then
                cfg_execHook targetRelease release.HookPreRollback (Timeout r)
              else ret None
            else ret None) ;;
    match pre with
    | Some err => ret (mkPerformed currentRelease targetRelease true None (Some err))
    | None =>
    upd <- KubeClient_Update current target (Force r) ;;
    let '(results, uerr) := upd in
    match uerr with
    | Some err =>
      let msg := "Rollback " ++ helpers.fmt_q (W := W) (release.Name targetRelease)
                 ++ " failed: " ++ err in
      let currentRelease :=
        release.set_status currentRelease release.StatusSuperseded in
      let targetRelease :=
        release.set_status targetRelease release.StatusFailed in
      let targetRelease := release.set_description targetRelease msg in
      if negb (ServerDryRun r) then
        cfg_recordRelease currentRelease ;;;
        cfg_recordRelease targetRelease ;;;
        if CleanupOnFail r then
          del <- KubeClient_Delete (kube.Created results) ;;
          match snd del with
          | Some errs =>
            ret (mkPerformed currentRelease targetRelease true None
                   (Some (errors_Wrap
                      ("unable to cleanup resources: " ++ strings_Join errs ", ")
                      ("an error occurred while cleaning up resources. original rollback error: "
                       ++ err))))
          | None =>
            ret (mkPerformed currentRelease targetRelease true
                   (Some results) (Some err))
          end
        else
          ret (mkPerformed currentRelease targetRelease true
                 (Some results) (Some err))
      else
        ret (mkPerformed currentRelease targetRelease true
               (Some results) (Some err))
    | None =>
    (* skip further operations if we're doing a server dry run *)
    if ServerDryRun r then
      ret (mkPerformed currentRelease
             (release.set_status targetRelease release.StatusDeployed)
             true (Some results) None)
    else
    (if Recreate r then recreate (kube.Updated results) ;;; ret tt
     else ret tt) ;;;
    waited <- (if Wait r then
                 if WaitForJobs r
                 then KubeClient_WaitWithJobs target (Timeout r)
                 else KubeClient_Wait target (Timeout r)
               else ret None) ;;
    match waited with
    | Some err =>
      let targetRelease :=
        release.SetStatus targetRelease release.StatusFailed
          ("Release " ++ helpers.fmt_q (W := W) (release.Name targetRelease)
           ++ " failed: " ++ err) in
      cfg_recordRelease currentRelease ;;;
      cfg_recordRelease targetRelease ;;;
      ret (mkPerformed currentRelease targetRelease true None
             (Some (errors_Wrap err
                ("release " ++ release.Name targetRelease ++ " failed"))))
    | None =>
    (* post-rollback hooks *)
    post <- (if negb (DisableHooks r) then
               cfg_execHook targetRelease release.HookPostRollback (Timeout r)
             else ret None) ;;
    match post with
    | Some err => ret (mkPerformed currentRelease targetRelease true None (Some err))
    | None =>
    dep <- Releases_DeployedAll (release.Name currentRelease) ;;
    let '(deployed, derr) := dep in
    if match derr with
       | Some err => negb (strings_Contains err "has no deployed releases")
       | None => false
       end
    then ret (mkPerformed currentRelease targetRelease false None derr)
    else
    (* Supersede all previous deployments, see issue #2941. *)
    supersede deployed ;;;
    ret (mkPerformed currentRelease
           (release.set_status targetRelease release.StatusDeployed)
           true (Some results) None)
    end end end end end end.

(** *** RunWithResult *)

Definition RunWithResult (r : Rollback) (name : string)
  : M W (option kube.Result * option error) :=
  fun w0 =>
  (dry <- (if ServerDryRun r then
             if kube.ServerDryRunnable w0
             then KubeClient_WithServerDryRun ;;; ret None
             else ret (Some "the kube client doesn't support server dry run")
           else ret None) ;;
   match dry with
   | Some err => ret (None, Some err)
   | None =>
   reach <- KubeClient_IsReachable ;;
   match reach with
   | Some err => ret (None, Some err)
   | None =>
   Releases_SetMaxHistory (MaxHistory r) ;;;
   prep <- prepareRollback r name ;;
   match prep with
   | inr err => ret (None, Some err)
   | inl (currentRelease, targetRelease) =>
   created <- (if negb (DryRun r) && negb (ServerDryRun r)
               then Releases_Create targetRelease
               else ret None) ;;
   match created with
   | Some err => ret (None, Some err)
   | None =>
   done <- performRollback r currentRelease targetRelease ;;
   match ret_err done with
   | Some err => ret (None, Some err)
   | None =>
   updated <- (if negb (DryRun r) && negb (ServerDryRun r)
               then Releases_Update (targetRelease' done)
               else ret None) ;;
   match updated with
   | Some err => ret (None, Some err)
   | None => ret (ret_result done, None)
   end end end end end end) w0.

(** [Run] *)
Definition Run (r : Rollback) (name : string) : M W (option error) :=
  res <- RunWithResult r name ;;
  ret (snd res).

End Engine.

(** ** What a failed apply and a failed wait leave behind *)

(** The error returned when the cleanup after a failed apply fails too. *)
Definition cleanup_error (err : error) (errs : list error) : error :=
  errors_Wrap
    ("unable to cleanup resources: " ++ strings_Join errs ", ")
    ("an error occurred while cleaning up resources. original rollback error: "
     ++ err).

Section Outcomes.

Context {W : Type}.
Context {Action : helpers.Helpers W}.

(** After the apply [CKubeUpdate original target force results (Some err)]:
    the current release is superseded and the target failed, with the
    failure message; the returned error mentions [err]; no store write
    comes before the apply; under server dry run nothing follows it;
    otherwise both records are updated, and with [CleanupOnFail] the
    created resources are deleted, a failed deletion giving
    [cleanup_error]. *)
Definition apply_failure_outcome
           (r : Rollback) (currentRelease targetRelease : release.Release)
           (original target : kube.ResourceList) (force : bool)
           (results : kube.Result) (err : error)
           (x : Performed * W * list Call) : Prop :=
  let superseded :=
    release.set_status currentRelease release.StatusSuperseded in
  let failed :=
    release.set_description
      (release.set_status targetRelease release.StatusFailed)
      ("Rollback " ++ helpers.fmt_q (W := W) (release.Name targetRelease)
       ++ " failed: " ++ err) in
  currentRelease' (result_of x) = superseded /\
  targetRelease' (result_of x) = failed /\
  (exists e, ret_err (result_of x) = Some e /\
             strings_Contains e err = true) /\
  exists before after,
    calls_of x =
    (before ++
     CKubeUpdate original target force results (Some err) :: after)%list /\
    none_of is_store_write before /\
    if ServerDryRun r then
      after = [] /\ ret_err (result_of x) = Some err
    else
      exists e1 e2 cleanup,
        after = CUpdate superseded e1 :: CUpdate failed e2 :: cleanup /\
        if CleanupOnFail r then
          exists deleted errs,
            cleanup = [CDelete (kube.Created results) deleted errs] /\
            match errs with
            | Some l =>
              ret_err (result_of x) = Some (cleanup_error err l) /\
              strings_Contains (cleanup_error err l)
                               (strings_Join l ", ") = true
            | None => ret_err (result_of x) = Some err
            end
        else
          cleanup = [] /\ ret_err (result_of x) = Some err.

(** After the wait call [c] failed with [err]: the current release is as
    it was, the target is failed, no result and the wrapped error are
    returned, nothing was deleted, and the run ends with [c] and the
    updates of the two records, the first store writes of the run. *)
Definition wait_failure_outcome
           (currentRelease targetRelease : release.Release)
           (c : Call) (err : error)
           (x : Performed * W * list Call) : Prop :=
  let failed :=
    release.SetStatus targetRelease release.StatusFailed
      ("Release " ++ helpers.fmt_q (W := W) (release.Name targetRelease)
       ++ " failed: " ++ err) in
  currentRelease' (result_of x) = currentRelease /\
  targetRelease' (result_of x) = failed /\
  ret_result (result_of x) = None /\
  ret_err (result_of x) =
  Some (errors_Wrap err
          ("release " ++ release.Name targetRelease ++ " failed")) /\
  none_of is_Delete (calls_of x) /\
  exists before e1 e2,
    calls_of x =
    (before ++ [c; CUpdate currentRelease e1; CUpdate failed e2])%list /\
    none_of is_store_write before.

(** After a run that ended in an error: if the apply or a wait failed,
    the target is failed and, unless server dry run, was written back;
    otherwise the target is as it was and the store was not written. *)
Definition failure_outcome
           (r : Rollback) (targetRelease : release.Release)
           (x : Performed * W * list Call) : Prop :=
  if existsb apply_or_wait_failed (calls_of x) then
    release.status (targetRelease' (result_of x)) = release.StatusFailed /\
    (ServerDryRun r = false ->
     exists e, In (CUpdate (targetRelease' (result_of x)) e) (calls_of x))
  else
    targetRelease' (result_of x) = targetRelease /\
    none_of is_store_write (calls_of x).

End Outcomes.

(** ** A release store in memory *)

Module memstore.

Import release.

Definition Store := list Release.

Definition has_key (name : string) (version : Z) (r : Release) : bool :=
  (Name r =? name)%string && (Version r =? version).

Definition get (name : string) (version : Z) (s : Store) : option Release :=
  find (has_key name version) s.

(** The release of [name] with the greatest revision. *)
Fixpoint last (name : string) (s : Store) : option Release :=
  match s with
  | [] => None
  | r :: s' =>
    match last name s' with
    | None => if (Name r =? name)%string then Some r else None
    | Some m =>
      if (Name r =? name)%string && (Version m <? Version r)
      then Some r else Some m
    end
  end.

(** [rls] takes the place of the record of its name and revision. *)
Definition replace (rls r : Release) : Release :=
  if has_key (Name rls) (Version rls) r then rls else r.

Definition put (rls : Release) (s : Store) : Store :=
  map (replace rls) s.

Definition deployed (name : string) (s : Store) : list Release :=
  filter (fun r => (Name r =? name)%string && is_deployed r) s.

(** What a record becomes when the releases of [l] are superseded and
    written back, one after the other. *)
Definition supersede_record (l : list Release) (r : Release) : Release :=
  fold_left (fun r rel => replace (set_status rel StatusSuperseded) r) l r.

(** The store once the draft [target] has been created, the deployed
    releases of [name] superseded and the deployed target written back. *)
Definition rolled_back (name : string) (target : Release) (s : Store)
  : Store :=
  let created := (s ++ [target])%list in
  put (set_status target StatusDeployed)
      (map (supersede_record (deployed name created)) created).

(** How many releases of [name] hold the status [Deployed]. *)
Definition deployed_count (name : string) (s : Store) : nat :=
  List.length (deployed name s).

(** The store [s'] and its journal [j] after a rollback of [name] on the
    store [s]: the target, one revision above the current release, is
    stored with the status [Deployed] and is the only deployed release of
    the name; every release of the name that was deployed in [s] is stored
    superseded; the journal ends with [s'], and no state of it has two
    deployed releases of a name that had at most one in [s]. *)
Definition superseded_by_rollback (name : string) (s s' : Store)
           (j : list Store) : Prop :=
  exists current target,
    last name s = Some current /\
    get name (Version current + 1) s' = Some target /\
    status target = StatusDeployed /\
    deployed name s' = [target] /\
    (forall rel,
        In rel s -> Name rel = name -> is_deployed rel = true ->
        exists rel',
          get name (Version rel) s' = Some rel' /\
          status rel' = StatusSuperseded) /\
    hd_error j = Some s' /\
    forall n,
      (deployed_count n s <= 1)%nat ->
      Forall (fun st => (deployed_count n st <= 1)%nat) j.

(** The world: the stored releases, the retention cap, the states the
    store went through (latest first), and the world of the cluster. *)
Record World (X : Type) := mkWorld {
  releases : Store;
  max_history : Z;
  journal : list Store;
  ext : X
}.
Arguments mkWorld {X}.
Arguments releases {X}.
Arguments max_history {X}.
Arguments journal {X}.
Arguments ext {X}.

Definition init {X} (s : Store) (x : X) : World X := mkWorld s 0 [] x.

Definition write {X} (s : Store) (w : World X) : World X :=
  mkWorld s (max_history w) (s :: journal w) (ext w).

Definition lift {X A} (f : X -> A * X) (w : World X) : A * World X :=
  let '(a, x) := f (ext w) in
  (a, mkWorld (releases w) (max_history w) (journal w) x).

Definition not_found : error := "release: not found".
Definition already_exists : error := "release: already exists".

(** Modelled from the spec: the Release Store is not among the files under
    study.  [Get] and [Last] answer with the release or NotFound; [Create]
    fails on a revision that exists (the optimistic-concurrency check of the
    spec) and [Update] on one that does not; [DeployedAll] lists the
    releases of the name whose status is [Deployed], and answers the
    sentinel "has no deployed releases" when there is none.  The retention
    cap is kept and not enforced (pruning is outside the spec). *)
#[global] Instance mem_storage {X} : storage.Storage (World X) := {
  storage.SetMaxHistory n w :=
    mkWorld (releases w) n (journal w) (ext w);
  storage.Last name w :=
    (match last name (releases w) with
     | Some r => inl r
     | None => inr not_found
     end, w);
  storage.Get name version w :=
    (match get name version (releases w) with
     | Some r => inl r
     | None => inr not_found
     end, w);
  storage.Create rls w :=
    if existsb (has_key (Name rls) (Version rls)) (releases w)
    then (Some already_exists, w)
    else (None, write (releases w ++ [rls])%list w);
  storage.Update rls w :=
    if existsb (has_key (Name rls) (Version rls)) (releases w)
    then (None, write (put rls (releases w)) w)
    else (Some not_found, w);
  storage.DeployedAll name w :=
    (match deployed name (releases w) with
     | [] => ([], Some (name ++ " has no deployed releases"))
     | l => (l, None)
     end, w)
}.

(** The cluster client and the helpers act on the world of the cluster
    and leave the stored releases alone. *)
#[global] Instance mem_kube {X} {K : kube.Interface X}
  : kube.Interface (World X) := {
  kube.ServerDryRunnable w := kube.ServerDryRunnable (ext w);
  kube.WithServerDryRun w :=
    mkWorld (releases w) (max_history w) (journal w)
            (kube.WithServerDryRun (ext w));
  kube.IsReachable := lift kube.IsReachable;
  kube.Build manifest validate := lift (kube.Build manifest validate);
  kube.Update original target force :=
    lift (kube.Update original target force);
  kube.Wait target timeout := lift (kube.Wait target timeout);
  kube.WaitWithJobs target timeout := lift (kube.WaitWithJobs target timeout);
  kube.Delete resources := lift (kube.Delete resources)
}.

#[global] Instance mem_helpers {X} {H : helpers.Helpers X}
  : helpers.Helpers (World X) := {
  helpers.ValidateReleaseName := helpers.ValidateReleaseName (W := X);
  helpers.errInvalidRevision := helpers.errInvalidRevision (W := X);
  helpers.fmt_q := helpers.fmt_q (W := X);
  helpers.execHook rl hook timeout := lift (helpers.execHook rl hook timeout);
  helpers.recreate resources := lift (helpers.recreate resources);
  helpers.Now := lift helpers.Now
}.

End memstore.

(** ** A scripted cluster, for running the engine on concrete inputs *)

Module fake.

(** What the cluster client and the helpers answer. *)
Record Cluster := mkCluster {
  dry_runnable : bool;
  dry_running : bool;
  reachable : option error;
  build : option error;
  pre_hook : option error;
  update : option error;
  created : kube.ResourceList;
  wait : option error;
  post_hook : option error;
  delete : option (list error);
  clock : Time
}.

Definition healthy : Cluster :=
  mkCluster true false None None None None [] None None None 1000.

Definition tick (c : Cluster) : Cluster :=
  mkCluster (dry_runnable c) (dry_running c) (reachable c) (build c)
            (pre_hook c) (update c) (created c) (wait c) (post_hook c)
            (delete c) (clock c + 1).

Definition dry (c : Cluster) : Cluster :=
  mkCluster (dry_runnable c) true (reachable c) (build c)
            (pre_hook c) (update c) (created c) (wait c) (post_hook c)
            (delete c) (clock c).

#[global] Instance fake_kube : kube.Interface Cluster := {
  kube.ServerDryRunnable c := dry_runnable c;
  kube.WithServerDryRun c := dry c;
  kube.IsReachable c := (reachable c, c);
  kube.Build manifest validate c :=
    (match build c with
     | Some err => inr err
     | None => inl [manifest]
     end, c);
  kube.Update original target force c :=
    ((kube.mkResult (created c) target [], update c), c);
  kube.Wait target timeout c := (wait c, c);
  kube.WaitWithJobs target timeout c := (wait c, c);
  kube.Delete resources c := ((kube.mkResult [] [] resources, delete c), c)
}.

Definition name_char (a : ascii) : bool :=
  let n := nat_of_ascii a in
  ((97 <=? n) && (n <=? 122) || (48 <=? n) && (n <=? 57)
   || (n =? 45) || (n =? 46))%nat.

Fixpoint all_chars (p : ascii -> bool) (s : string) : bool :=
  match s with
  | EmptyString => true
  | String a s' => p a && all_chars p s'
  end.

Definition valid_name (s : string) : bool :=
  negb (s =? "")%string && (String.length s <=? 53)%nat
  && all_chars name_char s.

Definition quote (s : string) : string :=
  String (ascii_of_nat 34) (s ++ String (ascii_of_nat 34) EmptyString).

#[global] Instance fake_helpers : helpers.Helpers Cluster := {
  helpers.ValidateReleaseName := valid_name;
  helpers.errInvalidRevision := "invalid release revision";
  helpers.fmt_q := quote;
  helpers.execHook rl hook timeout c :=
    (match hook with
     | release.HookPreRollback => pre_hook c
     | release.HookPostRollback => post_hook c
     end, c);
  helpers.recreate resources c := (None, c);
  helpers.Now c := (clock c, tick c)
}.

(** A release of the history of "app". *)
Definition app (version : Z) (st : release.Status) : release.Release :=
  {| release.Name := "app";
     release.Info_ :=
       {| release.FirstDeployed := 10;
          release.LastDeployed := 10 * version;
          release.Description := "Upgrade complete";
          release.Status_ := st;
          release.Notes := "notes v" ++ fmt_d version |};
     release.Chart := "chart-" ++ fmt_d version;
     release.Config := "values-" ++ fmt_d version;
     release.Manifest := "manifest-" ++ fmt_d version;
     release.Hooks := ["hook-" ++ fmt_d version];
     release.Version := version;
     release.Namespace := "prod" |}.

(** Revisions 3, 4 and 5 of "app", revision 5 deployed. *)
Definition history : memstore.Store :=
  [ app 3 release.StatusSuperseded;
    app 4 release.StatusSuperseded;
    app 5 release.StatusDeployed ].

Definition world (c : Cluster) : memstore.World Cluster :=
  memstore.init history c.

(** [helm rollback app] with the default options, and with [--wait],
    [--cleanup-on-fail], [--dry-run], and server dry run together with
    [--cleanup-on-fail]. *)
Definition rollback : Rollback :=
  mkRollback 0 300 false false false false false false false 10 false.
Definition with_wait : Rollback :=
  mkRollback 0 300 true false false false false false false 10 false.
Definition with_cleanup : Rollback :=
  mkRollback 0 300 false false false false false false true 10 false.
Definition dry_run : Rollback :=
  mkRollback 0 300 false false false true false false false 10 false.
Definition server_dry_run : Rollback :=
  mkRollback 0 300 false false false false false false true 10 true.

(** Clusters that fail at one step. *)
Definition no_capability : Cluster :=
  mkCluster false false None None None None [] None None None 1000.
Definition failing_build : Cluster :=
  mkCluster true false None (Some "bad manifest") None None [] None None
            None 1000.
Definition failing_apply : Cluster :=
  mkCluster true false None None None (Some "boom") ["A"; "B"] None None
            (Some ["cannot delete B"]) 1000.
Definition failing_wait : Cluster :=
  mkCluster true false None None None None [] (Some "timed out") None
            None 1000.

(** The current release of "app" and the draft of its rollback. *)
Definition current : release.Release := app 5 release.StatusDeployed.

Definition draft : release.Release :=
  {| release.Name := "app";
     release.Info_ :=
       {| release.FirstDeployed := 10;
          release.LastDeployed := 1000;
          release.Description := "Rollback to 4";
          release.Status_ := release.StatusPendingRollback;
          release.Notes := "notes v4" |};
     release.Chart := "chart-4";
     release.Config := "values-4";
     release.Manifest := "manifest-4";
     release.Hooks := ["hook-4"];
     release.Version := 6;
     release.Namespace := "prod" |}.

Definition run (r : Rollback) (c : Cluster) :=
  RunWithResult r "app" (world c).

Definition perform (r : Rollback) (c : Cluster) :=
  performRollback r current draft (world c).

End fake.

(** ** A store in memory that can refuse an update *)

Module flaky.

Import release memstore.

Definition unavailable : error := "store: unavailable".

(** The store in memory and a script of refusals, one entry for each
    [Update] to come. *)
Record World (X : Type) := mkWorld {
  mem : memstore.World X;
  refusals : list bool
}.
Arguments mkWorld {X}.
Arguments mem {X}.
Arguments refusals {X}.

Definition init {X} (s : Store) (script : list bool) (x : X) : World X :=
  mkWorld (memstore.init s x) script.

Definition lift {X A} (f : memstore.World X -> A * memstore.World X)
           (w : World X) : A * World X :=
  let '(a, m) := f (mem w) in
  (a, mkWorld m (refusals w)).

(** Modelled from the spec: [Update] returns an error of the store, which the
    engine cannot reason about.  Each [Update] takes the next entry of the
    script: on [true] it fails and writes nothing; otherwise, and once the
    script is over, it is the [Update] of the store in memory.  The other
    methods are those of the store in memory. *)
#[global] Instance flaky_storage {X} : storage.Storage (World X) := {
  storage.SetMaxHistory n w :=
    mkWorld (storage.SetMaxHistory n (mem w)) (refusals w);
  storage.Last name := lift (storage.Last name);
  storage.Get name version := lift (storage.Get name version);
  storage.Create rls := lift (storage.Create rls);
  storage.Update rls w :=
    match refusals w with
    | true :: rest => (Some unavailable, mkWorld (mem w) rest)
    | _ =>
      let '(err, m) := storage.Update rls (mem w) in
      (err, mkWorld m (tl (refusals w)))
    end;
  storage.DeployedAll name := lift (storage.DeployedAll name)
}.

#[global] Instance flaky_kube {X} {K : kube.Interface X}
  : kube.Interface (World X) := {
  kube.ServerDryRunnable w := kube.ServerDryRunnable (mem w);
  kube.WithServerDryRun w :=
    mkWorld (kube.WithServerDryRun (mem w)) (refusals w);
  kube.IsReachable := lift kube.IsReachable;
  kube.Build manifest validate := lift (kube.Build manifest validate);
  kube.Update original target force :=
    lift (kube.Update original target force);
  kube.Wait target timeout := lift (kube.Wait target timeout);
  kube.WaitWithJobs target timeout := lift (kube.WaitWithJobs target timeout);
  kube.Delete resources := lift (kube.Delete resources)
}.

#[global] Instance flaky_helpers {X} {H : helpers.Helpers X}
  : helpers.Helpers (World X) := {
  helpers.ValidateReleaseName := helpers.ValidateReleaseName (W := X);
  helpers.errInvalidRevision := helpers.errInvalidRevision (W := X);
  helpers.fmt_q := helpers.fmt_q (W := X);
  helpers.execHook rl hook timeout := lift (helpers.execHook rl hook timeout);
  helpers.recreate resources := lift (helpers.recreate resources);
  helpers.Now := lift helpers.Now
}.

(** The rollback of "app" on its history, with a script of refusals. *)
Definition run (r : Rollback) (script : list bool) (c : fake.Cluster) :=
  RunWithResult r "app" (init fake.history script c).

End flaky.

(** The [Update]s of a run were all accepted by the store. *)
Definition updates_accepted (tr : list Call) : Prop :=
  forall rls err, In (CUpdate rls err) tr -> err = None.

(** Every release of [name] that is deployed in [s] was written back as
    superseded, whatever the store answered. *)
Definition supersession_requested (name : string) (s : memstore.Store)
           (tr : list Call) : Prop :=
  forall rel,
    In rel s -> release.Name rel = name -> release.is_deployed rel = true ->
    exists err,
      In (CUpdate (release.set_status rel release.StatusSuperseded) err) tr.

(** ** More about the action: its constructor and further classes of calls *)

(** [NewRollback(cfg)]: every field other than [cfg] has its zero value. *)
Definition NewRollback : Rollback :=
  mkRollback 0 0 false false false false false false false 0 false.

Definition is_WithServerDryRun (c : Call) : bool :=
  match c with
  | CWithServerDryRun => true
  | _ => false
  end.

(** Calls on the release store, the write of [MaxHistory] included. *)
Definition is_store_call (c : Call) : bool :=
  match c with
  | CSetMaxHistory _ | CLast _ _ | CGet _ _ _ | CCreate _ _ | CUpdate _ _
  | CDeployedAll _ _ _ => true
  | _ => false
  end.

Definition is_apply (c : Call) : bool :=
  match c with
  | CKubeUpdate _ _ _ _ _ => true
  | _ => false
  end.

Definition is_hook (c : Call) : bool :=
  match c with
  | CExecHook _ _ _ _ => true
  | _ => false
  end.

Definition is_wait (c : Call) : bool :=
  match c with
  | CWait _ _ _ | CWaitWithJobs _ _ _ => true
  | _ => false
  end.

Definition is_Recreate (c : Call) : bool :=
  match c with
  | CRecreate _ _ => true
  | _ => false
  end.

(** The error a lookup in the store answered. *)
Definition read_error (c : Call) : option error :=
  match c with
  | CLast _ (inr err) | CGet _ _ (inr err) => Some err
  | _ => None
  end.

(** The error a build answered. *)
Definition build_error (c : Call) : option error :=
  match c with
  | CBuild _ _ (inr err) => Some err
  | _ => None
  end.

(** What the supersession loop writes for the release [rel]. *)
Definition supersedes (rel : release.Release) (c : Call) : Prop :=
  exists err,
    c = CUpdate (release.set_status rel release.StatusSuperseded) err.

(** The calls [performRollback] can make. *)
Definition is_perform_call (c : Call) : bool :=
  match c with
  | CBuild _ _ _ | CKubeUpdate _ _ _ _ _ | CWait _ _ _ | CWaitWithJobs _ _ _
  | CDelete _ _ _ | CExecHook _ _ _ _ | CRecreate _ _ | CDeployedAll _ _ _
  | CUpdate _ _ => true
  | _ => false
  end.

(** ** More inputs for running the engine: a scripted store *)

Module scripted.

(** A store that answers from a script, over the scripted cluster. *)
Record Store := mkStore {
  cluster : fake.Cluster;
  last : release.Release + error;
  get : release.Release + error;
  create : option error;
  update : option error;
  deployed : list release.Release * option error
}.

Definition lift {A} (f : fake.Cluster -> A * fake.Cluster) (s : Store)
  : A * Store :=
  let '(a, c) := f (cluster s) in
  (a, mkStore c (last s) (get s) (create s) (update s) (deployed s)).

#[global] Instance scripted_storage : storage.Storage Store := {
  storage.SetMaxHistory n s := s;
  storage.Last name s := (last s, s);
  storage.Get name version s := (get s, s);
  storage.Create rls s := (create s, s);
  storage.Update rls s := (update s, s);
  storage.DeployedAll name s := (deployed s, s)
}.

#[global] Instance scripted_kube : kube.Interface Store := {
  kube.ServerDryRunnable s := kube.ServerDryRunnable (cluster s);
  kube.WithServerDryRun s :=
    mkStore (kube.WithServerDryRun (cluster s)) (last s) (get s) (create s)
            (update s) (deployed s);
  kube.IsReachable := lift kube.IsReachable;
  kube.Build manifest validate := lift (kube.Build manifest validate);
  kube.Update original target force :=
    lift (kube.Update original target force);
  kube.Wait target timeout := lift (kube.Wait target timeout);
  kube.WaitWithJobs target timeout := lift (kube.WaitWithJobs target timeout);
  kube.Delete resources := lift (kube.Delete resources)
}.

#[global] Instance scripted_helpers : helpers.Helpers Store := {
  helpers.ValidateReleaseName := helpers.ValidateReleaseName (W := fake.Cluster);
  helpers.errInvalidRevision := helpers.errInvalidRevision (W := fake.Cluster);
  helpers.fmt_q := helpers.fmt_q (W := fake.Cluster);
  helpers.execHook rl hook timeout := lift (helpers.execHook rl hook timeout);
  helpers.recreate resources := lift (helpers.recreate resources);
  helpers.Now := lift helpers.Now
}.

(** The store knows revisions 5 and 4 of "app"; it refuses to create a
    record, or fails to list the deployed releases. *)
Definition conflict : Store :=
  mkStore fake.healthy (inl fake.current)
          (inl (fake.app 4 release.StatusSuperseded))
          (Some "release: already exists") None ([], None).

Definition unlistable : Store :=
  mkStore fake.healthy (inl fake.current)
          (inl (fake.app 4 release.StatusSuperseded))
          None None ([], Some "connection refused").

(** A cluster that cannot be reached, and one whose pre-rollback hook
    fails. *)
Definition unreachable : fake.Cluster :=
  fake.mkCluster true false (Some "cluster unreachable") None None None []
                 None None None 1000.

Definition failing_hook : fake.Cluster :=
  fake.mkCluster true false None None (Some "hook failed") None [] None None
                 None 1000.

(** [helm rollback app] with [--recreate-pods], and with the revision -1. *)
Definition with_recreate : Rollback :=
  mkRollback 0 300 false false false false true false false 10 false.

Definition negative : Rollback :=
  mkRollback (-1) 300 false false false false false false false 10 false.

End scripted.

(** ** Package [diffutil] (files differ.go and kube_result.go) *)

Module diffutil.

Definition Bytes := string.

(** [io.Writer] values are held by reference. *)
Definition Writer := string.

(** The calls the package makes on the operating system. *)
Inductive OsCall :=
| CMkdirTemp (dir pattern : string) (res : string + error)
| CMkdirAll (path : string) (perm : Z) (err : option error)
| CRemoveAll (path : string) (err : option error)
| CWriteFile (name : string) (data : Bytes) (perm : Z) (err : option error)
| CRun (shell : string) (args : list string) (stdout stderr : Writer)
       (err : option error).

(** What the package uses of [os], [os/exec], [path/filepath] and
    [runtime]; [Run] is [exec.Command(shell, args...)] run with the given
    [Stdout] and [Stderr]. *)
Class OS (W : Type) := {
  MkdirTemp : string -> string -> W -> (string + error) * W;
  MkdirAll : string -> Z -> W -> option error * W;
  RemoveAll : string -> W -> option error * W;
  WriteFile : string -> Bytes -> Z -> W -> option error * W;
  Getenv : string -> W -> string;
  Run_ : string -> list string -> Writer -> Writer -> W -> option error * W;
  GOOS : string;
  filepath_Join : string -> string -> string
}.

(** [runtime.Object] values, and [yaml.Marshal] on them. *)
Class Yaml (Obj : Type) := {
  Marshal : Obj -> Bytes + error
}.

Definition M (W A : Type) : Type := W -> A * W * list OsCall.

Definition ret {W A} (a : A) : M W A := fun w => (a, w, []).

Definition bind {W A B} (m : M W A) (f : A -> M W B) : M W B :=
  fun w =>
    let '(a, w1, t1) := m w in
    let '(b, w2, t2) := f a w1 in
    (b, w2, (t1 ++ t2)%list).

Definition call {W A} (f : W -> A * W) (c : A -> OsCall) : M W A :=
  fun w => let '(a, w') := f w in (a, w', [c a]).

(** [if err := m; err != nil { return err }; k] *)
Definition and_then {W} (m k : M W (option error)) : M W (option error) :=
  bind m (fun e => match e with
                   | Some err => ret (Some err)
                   | None => k
                   end).

Definition result_of {W A} (x : A * W * list OsCall) : A := fst (fst x).
Definition world_of {W A} (x : A * W * list OsCall) : W := snd (fst x).
Definition calls_of {W A} (x : A * W * list OsCall) : list OsCall := snd x.

Record Differ := mkDiffer {
  tmpdir : string
}.

(** A [*resource.Info]: its address, and the fields the package reads. *)
Record Info (Obj : Type) := mkInfo {
  addr : N;
  Namespace : string;
  Name : string;
  Group : string;
  Version : string;
  Kind : string;
  Object : Obj
}.
Arguments mkInfo {Obj}.
Arguments addr {Obj}.
Arguments Namespace {Obj}.
Arguments Name {Obj}.
Arguments Group {Obj}.
Arguments Version {Obj}.
Arguments Kind {Obj}.
Arguments Object {Obj}.

(** The [kube.Result] that [WriteKubeResult] reads; [LiveBeforeUpdate] is a
    map keyed by the address of the info, [None] where the lookup gives
    nil. *)
Record Result (Obj : Type) := mkResult {
  Created : list (Info Obj);
  Updated : list (Info Obj);
  Deleted : list (Info Obj);
  LiveBeforeUpdate : N -> option Obj
}.
Arguments mkResult {Obj}.
Arguments Created {Obj}.
Arguments Updated {Obj}.
Arguments Deleted {Obj}.
Arguments LiveBeforeUpdate {Obj}.

Section Package.

Context {W : Type}.
Context {os : OS W}.
Context {Obj : Type}.
Context {yaml : Yaml Obj}.

(** 0700 and 0600 *)
Definition dir_perm : Z := 448.
Definition file_perm : Z := 384.

Definition os_MkdirTemp (dir pattern : string) : M W (string + error) :=
  call (MkdirTemp dir pattern) (CMkdirTemp dir pattern).

Definition os_MkdirAll (path : string) (perm : Z) : M W (option error) :=
  call (MkdirAll path perm) (CMkdirAll path perm).

Definition os_RemoveAll (path : string) : M W (option error) :=
  call (RemoveAll path) (CRemoveAll path).

Definition os_WriteFile (name : string) (data : Bytes) (perm : Z)
  : M W (option error) :=
  call (WriteFile name data perm) (CWriteFile name data perm).

Definition cmd_Run (shell : string) (args : list string)
           (stdout stderr : Writer) : M W (option error) :=
  call (Run_ shell args stdout stderr) (CRun shell args stdout stderr).

(** [differ.subdirs()] *)
Definition subdirs (differ : Differ) : string * string :=
  (filepath_Join (tmpdir differ) "old", filepath_Join (tmpdir differ) "new").

(** [NewDiffer()] *)
Definition NewDiffer : M W (Differ + error) :=
  bind (os_MkdirTemp "" "diff-*") (fun made =>
  match made with
  | inr err => ret (inr err)
  | inl tmpdir =>
    bind (os_MkdirAll (filepath_Join tmpdir "old") dir_perm) (fun e1 =>
    match e1 with
    | Some err => ret (inr err)
    | None =>
      bind (os_MkdirAll (filepath_Join tmpdir "new") dir_perm) (fun e2 =>
      match e2 with
      | Some err => ret (inr err)
      | None => ret (inl (mkDiffer tmpdir))
      end)
    end)
  end).

(** [differ.Cleanup()] *)
Definition Cleanup (differ : Differ) : M W (option error) :=
  os_RemoveAll (tmpdir differ).

(** [differ.WriteOld(name, data)] *)
Definition WriteOld (differ : Differ) (name : string) (data : Bytes)
  : M W (option error) :=
  let '(oldDir, _) := subdirs differ in
  os_WriteFile (filepath_Join oldDir name) data file_perm.

(** [differ.WriteNew(name, data)] *)
Definition WriteNew (differ : Differ) (name : string) (data : Bytes)
  : M W (option error) :=
  let '(_, newDir) := subdirs differ in
  os_WriteFile (filepath_Join newDir name) data file_perm.

(** [differ.Run(commandPrefix, stdout, stderr)] *)
Definition Run (differ : Differ) (commandPrefix : string)
           (stdout stderr : Writer) : M W (option error) :=
  fun w =>
    let '(shell, args) :=
      if (GOOS =? "windows")%string
      then ("cmd", ["/C"])
      else ("/bin/sh", ["-c"]) in
    let envShell := Getenv "SHELL" w in
    let shell := if (envShell =? "")%string then shell else envShell in
    let '(oldDir, newDir) := subdirs differ in
    let args :=
      (args
       ++ [(commandPrefix ++ " " ++ oldDir ++ " " ++ newDir)%string])%list in
    cmd_Run shell args stdout stderr w.

(** The closure [infoName] of [WriteKubeResult]. *)
Definition infoName (info : Info Obj) : string :=
  Namespace info ++ "." ++ Name info ++ "." ++ Group info ++ "."
  ++ Version info ++ "." ++ Kind info ++ ".yaml".

(** The loop over [result.Created]; [None] when it runs to its end. *)
Fixpoint range_Created (differ : Differ) (infos : list (Info Obj))
  : M W (option error) :=
  match infos with
  | [] => ret None
  | info :: rest =>
    match Marshal (Object info) with
    | inr err => ret (Some err)
    | inl b =>
      and_then (WriteNew differ (infoName info) b)
               (range_Created differ rest)
    end
  end.

(** The loop over [result.Updated]. *)
Fixpoint range_Updated (differ : Differ) (live : N -> option Obj)
         (infos : list (Info Obj)) : M W (option error) :=
  match infos with
  | [] => ret None
  | info :: rest =>
    match live (addr info) with
    | None =>
      ret (Some ("no live before update version of " ++ infoName info))
    | Some old =>
      match Marshal old with
      | inr err => ret (Some err)
      | inl bOld =>
        match Marshal (Object info) with
        | inr err => ret (Some err)
        | inl bNew =>
          and_then (WriteNew differ (infoName info) bNew)
            (and_then (WriteOld differ (infoName info) bOld)
                      (range_Updated differ live rest))
        end
      end
    end
  end.

(** The loop over [result.Deleted]. *)
Fixpoint range_Deleted (differ : Differ) (infos : list (Info Obj))
  : M W (option error) :=
  match infos with
  | [] => ret None
  | info :: rest =>
    match Marshal (Object info) with
    | inr err => ret (Some err)
    | inl b =>
      and_then (WriteOld differ (infoName info) b)
               (range_Deleted differ rest)
    end
  end.

(** [WriteKubeResult(differ, result)] *)
Definition WriteKubeResult (differ : Differ) (result : Result Obj)
  : M W (option error) :=
  and_then (range_Created differ (Created result))
    (and_then (range_Updated differ (LiveBeforeUpdate result)
                             (Updated result))
              (range_Deleted differ (Deleted result))).

(** The files of a result: what goes to the directory of the new contents
    and what to the directory of the old ones, in the order of writing. *)
Definition new_file (differ : Differ) (info : Info Obj) : string :=
  filepath_Join (snd (subdirs differ)) (infoName info).

Definition old_file (differ : Differ) (info : Info Obj) : string :=
  filepath_Join (fst (subdirs differ)) (infoName info).

Definition files_of (differ : Differ) (result : Result Obj) : list string :=
  (map (new_file differ) (Created result)
   ++ flat_map (fun info => [new_file differ info; old_file differ info])
               (Updated result)
   ++ map (old_file differ) (Deleted result))%list.

End Package.

(** The file a call writes, and the error a call answers. *)
Definition written (c : OsCall) : option string :=
  match c with
  | CWriteFile name _ _ _ => Some name
  | _ => None
  end.

Definition failure (c : OsCall) : option error :=
  match c with
  | CMkdirTemp _ _ (inr err) => Some err
  | CMkdirAll _ _ err | CRemoveAll _ err | CWriteFile _ _ _ err
  | CRun _ _ _ _ err => err
  | CMkdirTemp _ _ (inl _) => None
  end.

Definition is_RemoveAll (c : OsCall) : bool :=
  match c with
  | CRemoveAll _ _ => true
  | _ => false
  end.

Definition is_file_write (c : OsCall) : Prop :=
  exists name data err, c = CWriteFile name data file_perm err.

(** A run that writes the files [expected] in their order, as far as it
    gets: every call is a write of a file with the permissions 0600; the
    files written are the first [k] of [expected], all of them when the run
    returns no error; and only the last call can have failed, with the error
    that is returned. *)
Definition orderly {W} (expected : list string)
           (x : option error * W * list OsCall) : Prop :=
  exists k good,
    (k <= List.length expected)%nat /\
    map written (calls_of x) = map Some (firstn k expected) /\
    (result_of x = None -> k = List.length expected) /\
    Forall is_file_write (calls_of x) /\
    Forall (fun c => failure c = None) good /\
    (calls_of x = good \/
     exists c err,
       calls_of x = (good ++ [c])%list /\
       failure c = Some err /\ result_of x = Some err).

End diffutil.

(** ** A file system in memory, for running the package *)

Module fakeos.

Record World := mkWorld {
  files : list (string * diffutil.Bytes);
  shell : string;
  read_only : bool
}.

#[global] Instance fake_os : diffutil.OS World := {
  diffutil.MkdirTemp dir pattern w := (inl "/tmp/diff-1", w);
  diffutil.MkdirAll path perm w :=
    if read_only w then (Some "read-only file system", w) else (None, w);
  diffutil.RemoveAll path w := (None, mkWorld [] (shell w) (read_only w));
  diffutil.WriteFile name data perm w :=
    if read_only w then (Some "read-only file system", w)
    else (None, mkWorld ((name, data) :: files w) (shell w) (read_only w));
  diffutil.Getenv key w := if (key =? "SHELL")%string then shell w else "";
  diffutil.Run_ sh args stdout stderr w := (None, w);
  diffutil.GOOS := "linux";
  diffutil.filepath_Join a b := a ++ "/" ++ b
}.

#[global] Instance fake_yaml : diffutil.Yaml string := {
  diffutil.Marshal obj := inl ("kind: " ++ obj)
}.

Definition empty : World := mkWorld [] "" false.
Definition with_bash : World := mkWorld [] "/bin/bash" false.
Definition locked : World := mkWorld [] "" true.

Definition differ : diffutil.Differ := diffutil.mkDiffer "/tmp/diff-1".

Definition info (addr : N) (name kind : string) : diffutil.Info string :=
  diffutil.mkInfo addr "prod" name "apps" "v1" kind kind.

(** One resource created, one updated with its live version, one deleted;
    and the same without the live version. *)
Definition result : diffutil.Result string :=
  diffutil.mkResult [info 1 "web" "Deployment"] [info 2 "db" "StatefulSet"]
                    [info 3 "old" "Deployment"]
                    (fun a => if (a =? 2)%N then Some "StatefulSet" else None).

Definition result_without_live : diffutil.Result string :=
  diffutil.mkResult [info 1 "web" "Deployment"] [info 2 "db" "StatefulSet"]
                    [info 3 "old" "Deployment"] (fun _ => None).

End fakeos.

(** * Properties of the rollback protocol *)

(** Symbolic execution of the engine: split on what a collaborator answers. *)
Ltac split_answer :=
  match goal with
  | |- context [match ?x with _ => _ end] =>
    lazymatch x with
    | context [match _ with _ => _ end] => fail
    | negb ?b => (is_var b; destruct b) || destruct x eqn:?
    | _ => (is_var x; destruct x) || destruct x eqn:?
    end
  end.

Ltac unfold_calls :=
  unfold cfg_recordRelease, cfg_execHook, recreate, helmtime_Now,
    KubeClient_WithServerDryRun, KubeClient_IsReachable, KubeClient_Build,
    KubeClient_Update, KubeClient_Wait, KubeClient_WaitWithJobs,
    KubeClient_Delete, Releases_SetMaxHistory, Releases_Last, Releases_Get,
    Releases_Create, Releases_Update, Releases_DeployedAll in *;
  unfold result_of, world_of, calls_of, bind, ret, call in *.

Ltac run_engine :=
  unfold_calls;
  repeat (simpl in *; rewrite ?andb_false_r, ?andb_true_r; try split_answer).

(** ** Strings *)

Lemma prefix_append (s t : string) : String.prefix s (s ++ t) = true.
Proof.
  induction s as [|a s IH]; simpl.
  - now destruct t.
  - destruct (ascii_dec a a) as [_|n]; [exact IH | now destruct n].
Qed.

Lemma strings_Contains_prefix (s substr : string) :
  String.prefix substr s = true -> strings_Contains s substr = true.
Proof.
  intros Hp. destruct s; cbn [strings_Contains]; rewrite Hp; reflexivity.
Qed.

Lemma strings_Contains_middle (before s after : string) :
  strings_Contains (before ++ s ++ after) s = true.
Proof.
  induction before as [|a before IH].
  - apply strings_Contains_prefix. cbn [append]. apply prefix_append.
  - change ((String a before) ++ s ++ after)
      with (String a (before ++ s ++ after)).
    cbn [strings_Contains]. rewrite IH. apply orb_true_r.
Qed.

Lemma strings_Contains_end (before s : string) :
  strings_Contains (before ++ s) s = true.
Proof.
  replace s with (s ++ "") at 1.
  - apply strings_Contains_middle.
  - induction s; simpl; congruence.
Qed.

Lemma prefix_refl (s : string) : String.prefix s s = true.
Proof.
  induction s as [|a s IH]; simpl; [reflexivity|].
  destruct (ascii_dec a a) as [_|n]; [exact IH | now destruct n].
Qed.

Lemma strings_Contains_refl (s : string) : strings_Contains s s = true.
Proof. apply strings_Contains_prefix, prefix_refl. Qed.

Lemma append_assoc (a b c : string) : (a ++ b) ++ c = a ++ b ++ c.
Proof.
  induction a as [|x a IH]; [reflexivity|]. cbn [append]. now rewrite IH.
Qed.

#[local] Arguments append : simpl never.
#[local] Arguments strings_Contains : simpl never.
#[local] Arguments strings_Join : simpl never.
#[local] Arguments errors_Wrap : simpl never.
#[local] Arguments fmt_d : simpl never.
#[local] Arguments int_add : simpl never.
#[local] Arguments int_sub : simpl never.

(** ** Wrap-around *)

Lemma int_add_in_range (a b : Z) :
  int_min <= a + b <= int_max -> int_add a b = a + b.
Proof.
  unfold int_add, int_wrap, int_min, int_max. intros Hr.
  rewrite Z.mod_small; lia.
Qed.

Lemma int_sub_in_range (a b : Z) :
  int_min <= a - b <= int_max -> int_sub a b = a - b.
Proof.
  unfold int_sub, int_wrap, int_min, int_max. intros Hr.
  rewrite Z.mod_small; lia.
Qed.

Section Protocol.

Context {W : Type}.
Context {KubeClient : kube.Interface W}.
Context {Releases : storage.Storage W}.
Context {Action : helpers.Helpers W}.

(** ** The supersession loop only updates the store *)

Lemma supersede_calls (deployed : list release.Release) (w : W) :
  forallb is_Update (calls_of (supersede deployed w)) = true.
Proof.
  revert w. induction deployed as [|rel rest IH]; intros w; [reflexivity|].
  cbn [supersede]. unfold_calls.
  destruct (storage.Update _ w) as [e w1].
  specialize (IH w1). destruct (supersede rest w1) as [[u w2] t].
  exact IH.
Qed.

(** C6.  Server dry run asked of a client that lacks the capability: the
    run returns the capability error at once; the world is as it was and
    no call was made, so [IsReachable] is not invoked, the store is neither
    read nor written and the cluster is not called. *)
Theorem server_dry_run_needs_capability (r : Rollback) (name : string) (w : W) :
  ServerDryRun r = true ->
  kube.ServerDryRunnable w = false ->
  RunWithResult r name w =
  ((None, Some "the kube client doesn't support server dry run"), w, []).
Proof.
  intros Hdry Hcap. unfold RunWithResult.
  rewrite Hdry, Hcap. reflexivity.
Qed.

(** C10.  The entry point never returns a result together with an error:
    whenever [RunWithResult] returns an error, its result is nil, whatever
    [performRollback] returned with that error. *)
Theorem error_comes_with_nil_result
        (r : Rollback) (name : string) (w : W)
        (res : option kube.Result) (err : error) :
  result_of (RunWithResult r name w) = (res, Some err) ->
  res = None.
Proof.
  unfold RunWithResult, prepareRollback.
  run_engine; congruence.
Qed.

(** C5, as amended.  With [DryRun] the run makes no [Create] and no
    [Update] on the store and no call on the cluster beyond the pre-flight
    ones; it does call [IsReachable], as its first call when server dry run
    is not asked as well; [performRollback] returns the draft as it is,
    without a call, and the entry point returns a nil result. *)
Theorem dry_run_touches_no_state (r : Rollback) (name : string) (w : W) :
  DryRun r = true ->
  let x := RunWithResult r name w in
  none_of is_store_write (calls_of x) /\
  none_of is_cluster_work (calls_of x) /\
  fst (result_of x) = None /\
  (ServerDryRun r = false ->
   hd_error (calls_of x) = Some (CIsReachable (fst (kube.IsReachable w)))) /\
  (forall currentRelease targetRelease w',
      performRollback r currentRelease targetRelease w' =
      (mkPerformed currentRelease targetRelease true None None, w', [])).
Proof.
  intros Hdry. destruct r; simpl in Hdry; subst.
  unfold RunWithResult, prepareRollback, performRollback, none_of.
  cbn [DryRun ServerDryRun Version MaxHistory].
  repeat split.
  all: try (intros ->).
  all: run_engine; try reflexivity; try discriminate.
Qed.

(** C7.  With [ServerDryRun] no run creates or updates a release record,
    and none waits, runs a hook, recreates pods, lists the deployed
    releases or deletes resources.  When the apply succeeds it is the last
    call of the run and its result is returned; [performRollback] then
    returns right after it, with the target's status set to [Deployed] in
    memory and the current release untouched. *)
Theorem server_dry_run_persists_nothing
        (r : Rollback) (name : string) (w : W) :
  ServerDryRun r = true ->
  let x := RunWithResult r name w in
  none_of is_store_write (calls_of x) /\
  none_of is_after_apply (calls_of x) /\
  (forall original target force results,
      In (CKubeUpdate original target force results None) (calls_of x) ->
      result_of x = (Some results, None) /\
      last (calls_of x) CWithServerDryRun =
      CKubeUpdate original target force results None) /\
  (forall currentRelease targetRelease w0 current w1 target w2 results w3,
      DryRun r = false ->
      kube.Build (release.Manifest currentRelease) false w0 =
      (inl current, w1) ->
      kube.Build (release.Manifest targetRelease) false w1 =
      (inl target, w2) ->
      kube.Update current target (Force r) w2 = ((results, None), w3) ->
      performRollback r currentRelease targetRelease w0 =
      (mkPerformed currentRelease
         (release.set_status targetRelease release.StatusDeployed)
         true (Some results) None,
       w3,
       [CBuild (release.Manifest currentRelease) false (inl current);
        CBuild (release.Manifest targetRelease) false (inl target);
        CKubeUpdate current target (Force r) results None])).
Proof.
  intros Hdry. destruct r; simpl in Hdry; subst.
  unfold RunWithResult, prepareRollback, performRollback, none_of.
  cbn [DryRun ServerDryRun Version MaxHistory Force DisableHooks
       CleanupOnFail Recreate Wait WaitForJobs Timeout].
  split; [|split; [|split]].
  4: { intros cur tgt w0 current w1 target w2 results w3 -> HB1 HB2 HU.
       unfold_calls. simpl. rewrite HB1. simpl. rewrite HB2. simpl.
       rewrite HU. reflexivity. }
  3: intros original target force results.
  all: run_engine; try reflexivity; try discriminate.
  all: intuition (try discriminate; try congruence).
Qed.

(** C1.  For a valid name whose latest release [currentRelease] has the
    revision [R] (with [R - 1] and [R + 1] representable), the designated
    revision is [R - 1] when the configured revision is 0 and the
    configured revision otherwise; the draft has the name and namespace of
    the current release, the chart, config, manifest, hooks and notes of
    the designated release, the revision [R + 1], the first deployment time
    of the current release, the time of the resolution as last deployment
    time, the status [PendingRollback] and the description
    "Rollback to <designated>". *)
Theorem prepareRollback_draft
        (r : Rollback) (name : string) (w w1 w2 w3 : W)
        (currentRelease previousRelease : release.Release) (now : Time) :
  let R := release.Version currentRelease in
  let designated := if Version r =? 0 then R - 1 else Version r in
  helpers.ValidateReleaseName (W := W) name = true ->
  0 <= Version r ->
  storage.Last name w = (inl currentRelease, w1) ->
  release.Name currentRelease = name ->
  int_min < R < int_max ->
  storage.Get name designated w1 = (inl previousRelease, w2) ->
  helpers.Now w2 = (now, w3) ->
  prepareRollback r name w =
  (inl (currentRelease,
        {| release.Name := release.Name currentRelease;
           release.Namespace := release.Namespace currentRelease;
           release.Chart := release.Chart previousRelease;
           release.Config := release.Config previousRelease;
           release.Manifest := release.Manifest previousRelease;
           release.Hooks := release.Hooks previousRelease;
           release.Version := R + 1;
           release.Info_ :=
             {| release.FirstDeployed :=
                  release.FirstDeployed (release.Info_ currentRelease);
                release.LastDeployed := now;
                release.Status_ := release.StatusPendingRollback;
                release.Notes := release.Notes (release.Info_ previousRelease);
                release.Description := "Rollback to " ++ fmt_d designated
             |} |}),
   w3,
   [CLast name (inl currentRelease);
    CGet name designated (inl previousRelease);
    CNow now]).
Proof.
  intros R designated Hname Hver Hlast Hcur HR Hget Hnow.
  unfold prepareRollback. rewrite Hname. cbn [negb].
  destruct (Version r <? 0) eqn:Hneg; [apply Z.ltb_lt in Hneg; lia|].
  assert (Hd : (if Version r =? 0
                then int_sub (release.Version currentRelease) 1
                else Version r) = designated).
  { unfold designated, R. destruct (Version r =? 0); [|reflexivity].
    apply int_sub_in_range. unfold int_min, int_max in *. lia. }
  unfold_calls. rewrite Hlast. cbv beta iota zeta. rewrite Hd, Hget.
  cbv beta iota zeta. rewrite Hnow. cbn. rewrite Hcur.
  rewrite int_add_in_range by (unfold int_min, int_max in *; lia).
  reflexivity.
Qed.

(** C9.  Two resolutions of the same name and configuration to which the
    store gives the same answers end alike: with the same error, or with
    the same current release and drafts that differ in [LastDeployed]
    only. *)
Theorem prepareRollback_twice (r : Rollback) (name : string) (w1 w2 : W) :
  fst (storage.Last name w1) = fst (storage.Last name w2) ->
  (forall version,
      fst (storage.Get name version (snd (storage.Last name w1))) =
      fst (storage.Get name version (snd (storage.Last name w2)))) ->
  match result_of (prepareRollback r name w1),
        result_of (prepareRollback r name w2) with
  | inl (current1, target1), inl (current2, target2) =>
    current1 = current2 /\
    target2 =
    release.set_last_deployed target1
      (release.LastDeployed (release.Info_ target2))
  | inr err1, inr err2 => err1 = err2
  | _, _ => False
  end.
Proof.
  intros Hlast Hget. unfold prepareRollback.
  destruct (negb (helpers.ValidateReleaseName name)); [reflexivity|].
  destruct (Version r <? 0); [reflexivity|].
  unfold_calls.
  destruct (storage.Last name w1) as [l1 w1'].
  destruct (storage.Last name w2) as [l2 w2'].
  simpl in Hlast, Hget. subst l2.
  destruct l1 as [cur|err]; [|reflexivity]. cbn.
  match goal with
  | |- context [storage.Get name ?v w1'] => specialize (Hget v)
  end.
  destruct (storage.Get name _ w1') as [g1 w1''].
  destruct (storage.Get name _ w2') as [g2 w2''].
  simpl in Hget. subst g2.
  destruct g1 as [prev|err]; [|reflexivity]. cbn.
  destruct (helpers.Now w1''), (helpers.Now w2''). cbn.
  split; reflexivity.
Qed.

End Protocol.

(** ** Failures of the apply and of the wait *)

Lemma cleanup_error_keeps_both (err : error) (errs : list error) :
  strings_Contains (cleanup_error err errs) err = true /\
  strings_Contains (cleanup_error err errs) (strings_Join errs ", ") = true.
Proof.
  unfold cleanup_error, errors_Wrap. split.
  - rewrite append_assoc. apply strings_Contains_middle.
  - rewrite <- !append_assoc. apply strings_Contains_end.
Qed.

Section Failures.

Context {W : Type}.
Context {KubeClient : kube.Interface W}.
Context {Releases : storage.Storage W}.
Context {Action : helpers.Helpers W}.

Lemma supersede_calls_In (deployed : list release.Release) (w : W) (c : Call) :
  In c (calls_of (supersede deployed w)) -> is_Update c = true.
Proof.
  intros Hin. pose proof (supersede_calls deployed w) as Hall.
  rewrite forallb_forall in Hall. auto.
Qed.

Ltac loop_calls :=
  repeat match goal with
  | E : supersede ?l ?w = (_, _, ?t) |- _ =>
    let H := fresh "Hloop" in
    pose proof (supersede_calls_In l w) as H;
    rewrite E in H; unfold calls_of in H; cbn [snd] in H;
    revert E
  end; intros.

Ltac in_cases :=
  repeat match goal with
  | H : In _ (_ :: _) |- _ => destruct H as [H|H]
  | H : In _ [] |- _ => destruct H
  | H : In _ (_ ++ _) |- _ => apply in_app_or in H; destruct H as [H|H]
  | H : _ \/ _ |- _ => destruct H as [H|H]
  end.

Ltac find_in := first [ left; reflexivity | right; find_in ].

(** C3.  A wait that fails after a successful apply: only the target is
    marked, as [Failed]; the current release keeps its status (it is not
    superseded) and both records are written back; the wrapped error is
    returned with no result; nothing is deleted, whatever [CleanupOnFail]
    says. *)
Theorem wait_failure_policy
        (r : Rollback) (currentRelease targetRelease : release.Release)
        (w : W) (c : Call) (err : error) :
  let x := performRollback r currentRelease targetRelease w in
  In c (calls_of x) ->
  wait_error c = Some err ->
  wait_failure_outcome currentRelease targetRelease c err x.
Proof.
  destruct r.
  unfold wait_failure_outcome, apply_failure_outcome, performRollback, none_of.
  cbn [DryRun ServerDryRun Version MaxHistory Force DisableHooks
       CleanupOnFail Recreate Wait WaitForJobs Timeout].
  run_engine; intros Hin Herr; loop_calls; in_cases; try contradiction;
    subst; simpl in Herr; try discriminate;
    try (match goal with
         | H : forall c, In c _ -> is_Update c = true, H' : In ?c _ |- _ =>
           apply H in H'; destruct c; discriminate
         end).
  all: inversion Herr; subst.
  all: repeat split; try reflexivity.
  all: match goal with
       | |- exists before, exists _ _, ?l = _ /\ _ =>
         exists (firstn (List.length l - 3) l)
       end; simpl; eexists _, _; split; reflexivity.
Qed.

(** C2, as amended.  When the apply returns an error, the current release
    is marked [Superseded] and the target [Failed], with the failure
    message as description; the returned error always mentions the apply
    error.  Unless [ServerDryRun], both records are written back and, with
    [CleanupOnFail], [Delete] is called on the created resources; if that
    fails, the returned error carries the apply error and the joined
    deletion errors.  Under [ServerDryRun] nothing is written and nothing
    is deleted. *)
Theorem apply_failure_policy
        (r : Rollback) (currentRelease targetRelease : release.Release)
        (w : W) (original target : kube.ResourceList) (force : bool)
        (results : kube.Result) (err : error) :
  let x := performRollback r currentRelease targetRelease w in
  In (CKubeUpdate original target force results (Some err)) (calls_of x) ->
  apply_failure_outcome r currentRelease targetRelease
                        original target force results err x.
Proof.
  destruct r.
  unfold wait_failure_outcome, apply_failure_outcome, performRollback, none_of.
  cbn [DryRun ServerDryRun Version MaxHistory Force DisableHooks
       CleanupOnFail Recreate Wait WaitForJobs Timeout].
  run_engine; intros Hin; loop_calls; in_cases; try contradiction;
    try discriminate;
    try (match goal with
         | H : forall c, In c _ -> is_Update c = true, H' : In ?c _ |- _ =>
           apply H in H'; discriminate
         end).
  all: inversion Hin; subst.
  all: split; [reflexivity|]; split; [reflexivity|]; split;
    [ eexists; split; [reflexivity|];
      first [ apply cleanup_error_keeps_both
            | apply strings_Contains_refl ] | ].
  all: match goal with
       | |- exists before, exists _, ?l = _ /\ _ =>
         first [ exists (firstn 2 l); simpl; eexists; split;
                 [reflexivity|]
               | exists (firstn 3 l); simpl; eexists; split;
                 [reflexivity|] ]
       end.
  all: split; [reflexivity|].
  all: try (split; reflexivity).
  all: eexists _, _, _; split; [reflexivity|].
  all: try (split; reflexivity).
  all: eexists _, _; split; [reflexivity|]; cbv beta iota.
  all: try reflexivity.
  all: split; [reflexivity | apply cleanup_error_keeps_both].
Qed.

(** C4, as amended.  A [performRollback] that ends in an error after a
    failed apply or a failed wait leaves the target [Failed] and, unless
    [ServerDryRun], has written it back with [Update].  One that ends in
    an error otherwise (a manifest that does not build, a hook that fails,
    the listing of the deployed releases) leaves the target as it was and
    writes nothing to the store. *)
Theorem failure_status
        (r : Rollback) (currentRelease targetRelease : release.Release)
        (w : W) (err : error) :
  let x := performRollback r currentRelease targetRelease w in
  ret_err (result_of x) = Some err ->
  failure_outcome r targetRelease x.
Proof.
  destruct r.
  unfold failure_outcome, performRollback, none_of.
  cbn [DryRun ServerDryRun Version MaxHistory Force DisableHooks
       CleanupOnFail Recreate Wait WaitForJobs Timeout].
  run_engine; intros Herr; try discriminate.
  all: split; try reflexivity; try discriminate.
  all: intros Hs; try discriminate Hs; eexists; simpl; find_in.
Qed.

End Failures.

(** ** The store in memory *)

Section Store.

Import release memstore.

Lemma has_key_spec (name : string) (version : Z) (r : Release) :
  has_key name version r = true <-> Name r = name /\ Version r = version.
Proof.
  unfold has_key. rewrite andb_true_iff, String.eqb_eq, Z.eqb_eq. tauto.
Qed.

Lemma replace_key (rls r : Release) :
  Name (replace rls r) = Name r /\ Version (replace rls r) = Version r.
Proof.
  unfold replace. destruct (has_key _ _ r) eqn:E; [|tauto].
  apply has_key_spec in E. destruct E. split; congruence.
Qed.

Lemma has_key_replace (name : string) (version : Z) (rls r : Release) :
  has_key name version (replace rls r) = has_key name version r.
Proof.
  unfold has_key. destruct (replace_key rls r) as [-> ->]. reflexivity.
Qed.

Lemma supersede_record_cons (rel : Release) (l : list Release)
      (r : Release) :
  supersede_record (rel :: l) r =
  supersede_record l (replace (set_status rel StatusSuperseded) r).
Proof. reflexivity. Qed.

Lemma supersede_record_key (l : list Release) (r : Release) :
  Name (supersede_record l r) = Name r /\
  Version (supersede_record l r) = Version r.
Proof.
  revert r. induction l as [|rel l IH]; intros r; [split; reflexivity|].
  rewrite supersede_record_cons.
  destruct (IH (replace (set_status rel StatusSuperseded) r)) as [-> ->].
  apply replace_key.
Qed.

Lemma supersede_record_stays (l : list Release) (r : Release) :
  status r = StatusSuperseded ->
  status (supersede_record l r) = StatusSuperseded.
Proof.
  revert r. induction l as [|rel l IH]; intros r Hs; [exact Hs|].
  rewrite supersede_record_cons.
  apply IH. unfold replace. destruct (has_key _ _ r); [reflexivity|exact Hs].
Qed.

Lemma supersede_record_hit (l : list Release) (r rel : Release) :
  In rel l ->
  has_key (Name rel) (Version rel) r = true ->
  status (supersede_record l r) = StatusSuperseded.
Proof.
  revert r. induction l as [|a l IH]; intros r Hin Hk; [destruct Hin|].
  rewrite supersede_record_cons.
  destruct Hin as [->|Hin].
  - apply supersede_record_stays. unfold replace.
    change (Name (set_status rel StatusSuperseded)) with (Name rel).
    change (Version (set_status rel StatusSuperseded)) with (Version rel).
    rewrite Hk. reflexivity.
  - apply IH; [exact Hin|]. rewrite has_key_replace. exact Hk.
Qed.

Lemma supersede_record_miss (l : list Release) (r : Release) :
  supersede_record l r = r \/
  status (supersede_record l r) = StatusSuperseded.
Proof.
  revert r. induction l as [|rel l IH]; intros r; [left; reflexivity|].
  rewrite supersede_record_cons.
  unfold replace. destruct (has_key _ _ r); [|apply IH].
  right. apply supersede_record_stays. reflexivity.
Qed.

Lemma put_absent (rls : Release) (s : Store) :
  existsb (has_key (Name rls) (Version rls)) s = false ->
  put rls s = s.
Proof.
  intros Habs. unfold put. rewrite <- (map_id s) at 2.
  apply map_ext_in. intros r Hin. unfold replace.
  destruct (has_key _ _ r) eqn:E; [|reflexivity].
  assert (existsb (has_key (Name rls) (Version rls)) s = true)
    by (apply existsb_exists; eauto).
  congruence.
Qed.

Lemma get_map (f : Release -> Release) (name : string) (version : Z)
      (s : Store) :
  (forall r, has_key name version (f r) = has_key name version r) ->
  get name version (map f s) = option_map f (get name version s).
Proof.
  intros Hf. unfold get. induction s as [|r s IH]; [reflexivity|].
  cbn [map find]. rewrite Hf. destruct (has_key name version r);
    [reflexivity | exact IH].
Qed.

Lemma get_app (name : string) (version : Z) (s t : Store) :
  get name version (s ++ t)%list =
  match get name version s with
  | Some r => Some r
  | None => get name version t
  end.
Proof.
  unfold get. induction s as [|r s IH]; [reflexivity|].
  cbn [app find]. destruct (has_key name version r); [reflexivity|exact IH].
Qed.

Lemma get_absent (name : string) (version : Z) (s : Store) :
  existsb (has_key name version) s = false -> get name version s = None.
Proof.
  unfold get. induction s as [|r s IH]; [reflexivity|].
  cbn [existsb find]. destruct (has_key name version r);
    [discriminate | exact IH].
Qed.

Lemma get_present (rel : Release) (s : Store) :
  In rel s ->
  exists r, get (Name rel) (Version rel) s = Some r /\ In r s /\
            has_key (Name rel) (Version rel) r = true.
Proof.
  intros Hin. unfold get.
  destruct (find (has_key (Name rel) (Version rel)) s) as [r|] eqn:E.
  - exists r. apply find_some in E. tauto.
  - apply (find_none _ _ E) in Hin.
    assert (has_key (Name rel) (Version rel) rel = true)
      by (apply has_key_spec; tauto).
    congruence.
Qed.

Lemma last_spec (name : string) (s : Store) (r : Release) :
  last name s = Some r -> In r s /\ Name r = name.
Proof.
  revert r. induction s as [|a s IH]; intros r; [discriminate|].
  cbn [last]. destruct (last name s) as [m|].
  - destruct ((Name a =? name)%string && (Version m <? Version a)) eqn:E;
      intros [= <-].
    + apply andb_true_iff in E. destruct E as [E _].
      apply String.eqb_eq in E. split; [left; reflexivity | exact E].
    + destruct (IH m eq_refl). split; [right; assumption | assumption].
  - destruct (Name a =? name)%string eqn:E; [|discriminate].
    intros [= <-]. apply String.eqb_eq in E.
    split; [left; reflexivity | exact E].
Qed.

(** Counting is monotone under a pointwise change that deploys nothing. *)
Lemma deployed_count_map (f : Release -> Release) (name : string)
      (s : Store) :
  (forall r, (Name (f r) =? name)%string && is_deployed (f r) = true ->
             (Name r =? name)%string && is_deployed r = true) ->
  (deployed_count name (map f s) <= deployed_count name s)%nat.
Proof.
  intros Hf. unfold deployed_count, deployed.
  induction s as [|r s IH]; [apply Nat.le_refl|].
  cbn [map filter].
  destruct ((Name (f r) =? name)%string && is_deployed (f r)) eqn:E.
  - rewrite (Hf r E). cbn [List.length]. lia.
  - destruct ((Name r =? name)%string && is_deployed r); cbn [List.length];
      lia.
Qed.

Lemma deployed_count_supersede (name : string) (rel : Release) (s : Store) :
  (deployed_count name (put (set_status rel StatusSuperseded) s)
   <= deployed_count name s)%nat.
Proof.
  apply deployed_count_map. intros r. unfold replace.
  destruct (has_key _ _ r); [|tauto].
  unfold is_deployed. cbn. rewrite andb_false_r. discriminate.
Qed.

Lemma deployed_count_app (name : string) (s t : Store) :
  deployed_count name (s ++ t)%list =
  (deployed_count name s + deployed_count name t)%nat.
Proof.
  unfold deployed_count, deployed. rewrite filter_app. apply length_app.
Qed.

Lemma filter_map_nil (p : Release -> bool) (f : Release -> Release)
      (s : Store) :
  (forall r, In r s -> p (f r) = false) -> filter p (map f s) = [].
Proof.
  induction s as [|r s IH]; intros Hp; [reflexivity|].
  cbn [map filter]. rewrite (Hp r (or_introl eq_refl)).
  apply IH. intros r' Hin. apply Hp. right. exact Hin.
Qed.

Lemma status_not_deployed (r : Release) :
  status r = StatusSuperseded -> is_deployed r = false.
Proof. unfold is_deployed. intros ->. reflexivity. Qed.

Lemma deployed_count_supersede_all (name : string) (l : list Release)
      (s : Store) :
  (deployed_count name (map (supersede_record l) s)
   <= deployed_count name s)%nat.
Proof.
  apply deployed_count_map. intros r.
  destruct (supersede_record_miss l r) as [-> | Hs]; [tauto|].
  rewrite (status_not_deployed _ Hs), andb_false_r. discriminate.
Qed.

Section RolledBack.

Variables (name : string) (target : Release) (s : Store).
Hypothesis target_name : Name target = name.
Hypothesis target_pending : is_deployed target = false.
Hypothesis target_new :
  existsb (has_key name (Version target)) s = false.

Let created := (s ++ [target])%list.
Let l := deployed name created.
Let deployed_target := set_status target StatusDeployed.

Lemma target_key (r : Release) :
  has_key (Name deployed_target) (Version deployed_target) r =
  has_key name (Version target) r.
Proof. unfold deployed_target. cbn. rewrite target_name. reflexivity. Qed.

Lemma old_record_untouched (r : Release) :
  In r s ->
  replace deployed_target (supersede_record l r) = supersede_record l r.
Proof.
  intros Hin. unfold replace. rewrite target_key.
  destruct (has_key name (Version target) (supersede_record l r)) eqn:E;
    [|reflexivity].
  apply has_key_spec in E.
  destruct (supersede_record_key l r) as [Hn Hv].
  rewrite Hn, Hv in E.
  assert (existsb (has_key name (Version target)) s = true).
  { apply existsb_exists. exists r. split; [exact Hin|].
    apply has_key_spec. exact E. }
  congruence.
Qed.

Lemma new_record_deployed :
  replace deployed_target (supersede_record l target) = deployed_target.
Proof.
  unfold replace. rewrite target_key.
  destruct (supersede_record_key l target) as [Hn Hv].
  assert (E : has_key name (Version target) (supersede_record l target)
              = true) by (apply has_key_spec; split; congruence).
  rewrite E. reflexivity.
Qed.

Lemma rolled_back_pointwise :
  rolled_back name target s =
  (map (supersede_record l) s ++ [deployed_target])%list.
Proof.
  unfold rolled_back, put. fold created. fold l. fold deployed_target.
  rewrite map_map. unfold created. rewrite map_app. cbn [map].
  rewrite new_record_deployed. f_equal.
  apply map_ext_in. intros r Hin. apply old_record_untouched, Hin.
Qed.

Lemma old_deployed_in_l (r : Release) :
  In r s -> Name r = name -> is_deployed r = true -> In r l.
Proof.
  intros Hin Hn Hd. unfold l, deployed, created.
  apply filter_In. split; [apply in_or_app; left; exact Hin|].
  apply andb_true_iff. split; [apply String.eqb_eq; exact Hn | exact Hd].
Qed.

Lemma old_record_not_deployed (r : Release) :
  In r s ->
  (Name (supersede_record l r) =? name)%string
  && is_deployed (supersede_record l r) = false.
Proof.
  intros Hin. destruct (supersede_record_key l r) as [Hn _]. rewrite Hn.
  destruct (Name r =? name)%string eqn:En; [|reflexivity].
  apply String.eqb_eq in En. cbn [andb].
  destruct (is_deployed r) eqn:Ed.
  - apply status_not_deployed.
    apply (supersede_record_hit l r r).
    + apply old_deployed_in_l; assumption.
    + apply has_key_spec. tauto.
  - destruct (supersede_record_miss l r) as [-> | Hs];
      [exact Ed | apply status_not_deployed, Hs].
Qed.

Lemma rolled_back_deployed :
  deployed name (rolled_back name target s) = [deployed_target].
Proof.
  rewrite rolled_back_pointwise. unfold deployed at 1.
  rewrite filter_app.
  rewrite (filter_map_nil _ _ _ old_record_not_deployed).
  cbn [filter app]. unfold deployed_target at 1 2. cbn.
  rewrite target_name, String.eqb_refl. reflexivity.
Qed.

Lemma rolled_back_target :
  get name (Version target) (rolled_back name target s) =
  Some deployed_target.
Proof.
  rewrite rolled_back_pointwise, get_app, get_map.
  - rewrite (get_absent _ _ _ target_new). unfold get. cbn [find].
    assert (E : has_key name (Version target) deployed_target = true)
      by (apply has_key_spec; split; [exact target_name | reflexivity]).
    rewrite E. reflexivity.
  - intros r. unfold has_key.
    destruct (supersede_record_key l r) as [-> ->]. reflexivity.
Qed.

Lemma rolled_back_superseded (rel : Release) :
  In rel s -> Name rel = name -> is_deployed rel = true ->
  exists rel',
    get name (Version rel) (rolled_back name target s) = Some rel' /\
    status rel' = StatusSuperseded.
Proof.
  intros Hin Hn Hd.
  destruct (get_present rel s Hin) as (r & Hget & Hr & Hk).
  rewrite Hn in Hget.
  exists (supersede_record l r). split.
  - rewrite rolled_back_pointwise, get_app, get_map.
    + rewrite Hget. reflexivity.
    + intros r'. unfold has_key.
      destruct (supersede_record_key l r') as [-> ->]. reflexivity.
  - apply (supersede_record_hit l r rel); [|exact Hk].
    apply old_deployed_in_l; assumption.
Qed.

Lemma rolled_back_count (n : string) :
  (deployed_count n s <= 1 ->
   deployed_count n (rolled_back name target s) <= 1)%nat.
Proof.
  intros Hs. destruct (String.eqb_spec n name) as [-> | Hne].
  - unfold deployed_count. rewrite rolled_back_deployed. apply Nat.le_refl.
  - rewrite rolled_back_pointwise, deployed_count_app.
    pose proof (deployed_count_supersede_all n l s).
    assert (deployed_count n [deployed_target] = 0%nat).
    { unfold deployed_count, deployed. cbn [filter].
      change (Name deployed_target) with (Name target).
      rewrite target_name.
      destruct (String.eqb_spec name n); [congruence | reflexivity]. }
    lia.
Qed.

End RolledBack.

End Store.


(** ** Runs against a store that can refuse an update *)

Section FlakyRun.

Import release memstore.

Context {X : Type}.
Context {KubeClient : kube.Interface X}.
Context {Action : helpers.Helpers X}.

Lemma sentinel_is_recognised (name : string) :
  strings_Contains (name ++ " has no deployed releases")
                   "has no deployed releases" = true.
Proof.
  change (name ++ " has no deployed releases")
    with (name ++ " " ++ "has no deployed releases").
  rewrite <- append_assoc. apply strings_Contains_end.
Qed.

Lemma lift_frame {A : Type} (f : X -> A * X) (w w' : World X) (a : A) :
  lift f w = (a, w') ->
  releases w' = releases w /\ journal w' = journal w.
Proof.
  unfold lift. destruct (f (ext w)). intros [= _ <-]. split; reflexivity.
Qed.

(** An accepted [Update] puts the record; the state it leaves is the new
    head of the journal. *)
Lemma accepted_update (rls : Release) (w w' : flaky.World X) :
  storage.Update rls w = (None, w') ->
  releases (flaky.mem w') = put rls (releases (flaky.mem w)) /\
  journal (flaky.mem w') =
  put rls (releases (flaky.mem w)) :: journal (flaky.mem w).
Proof.
  cbn [storage.Update flaky.flaky_storage mem_storage].
  destruct (flaky.refusals w) as [|[|] rest];
    try discriminate;
    destruct (existsb _ (releases (flaky.mem w)));
    try discriminate; intros [= <-]; split; reflexivity.
Qed.

(** When its writes are accepted, the loop leaves every record superseded
    that it was given. *)
Lemma supersede_world (Q : Store -> Prop) (l : list Release)
      (w : flaky.World X) :
  (forall st rel, Q st -> Q (put (set_status rel StatusSuperseded) st)) ->
  Q (releases (flaky.mem w)) ->
  Forall Q (journal (flaky.mem w)) ->
  let run := supersede l w in
  updates_accepted (calls_of run) ->
  releases (flaky.mem (world_of run)) =
  map (supersede_record l) (releases (flaky.mem w)) /\
  Q (releases (flaky.mem (world_of run))) /\
  Forall Q (journal (flaky.mem (world_of run))).
Proof.
  intros HQ. revert w. induction l as [|rel l IH]; intros w Hs Hj.
  - cbn. intros _. rewrite map_id. auto.
  - cbn [supersede].
    unfold cfg_recordRelease, Releases_Update, bind, ret, call,
      calls_of, world_of.
    destruct (storage.Update _ w) as [e w1] eqn:EU.
    specialize (IH w1). unfold calls_of, world_of in IH. cbv zeta in IH.
    destruct (supersede l w1) as [[u w2] t]. cbn [fst snd app] in *.
    intros Hacc.
    assert (e = None)
      by (apply (Hacc (set_status rel StatusSuperseded) e); left;
          reflexivity).
    subst e.
    apply accepted_update in EU. destruct EU as [Hr Hjr].
    rewrite Hr, Hjr in IH.
    destruct IH as (-> & IH2 & IH3).
    + apply HQ, Hs.
    + constructor; [apply HQ, Hs | exact Hj].
    + intros rls err Hin. apply (Hacc rls err). right. exact Hin.
    + repeat split; try assumption.
      unfold put. rewrite map_map. reflexivity.
Qed.

(** The loop writes back, as superseded, each release it is given. *)
Lemma supersede_requests (l : list Release) (w : flaky.World X)
      (rel : Release) :
  In rel l ->
  exists err,
    In (CUpdate (set_status rel StatusSuperseded) err)
       (calls_of (supersede l w)).
Proof.
  revert w. induction l as [|a l IH]; intros w Hin; [destruct Hin|].
  cbn [supersede].
  unfold cfg_recordRelease, Releases_Update, bind, ret, call, calls_of.
  destruct (storage.Update _ w) as [e w1].
  specialize (IH w1). unfold calls_of in IH.
  destruct (supersede l w1) as [[u w2] t]. cbn [fst snd app] in *.
  destruct Hin as [-> | Hin].
  - exists e. left. reflexivity.
  - destruct (IH Hin) as [err Herr]. exists err. right. exact Herr.
Qed.

#[local] Arguments supersede : simpl never.

Lemma flaky_frame {A : Type} (f : X -> A * X) (w w' : flaky.World X)
      (a : A) :
  flaky.lift (lift f) w = (a, w') ->
  releases (flaky.mem w') = releases (flaky.mem w) /\
  journal (flaky.mem w') = journal (flaky.mem w).
Proof.
  unfold flaky.lift. destruct (lift f (flaky.mem w)) as [a' m] eqn:E.
  intros [= _ <-]. exact (lift_frame f _ _ _ E).
Qed.

Ltac in_tail :=
  first [ assumption
        | apply in_or_app; left; assumption
        | right; in_tail ].

(** A rollback that goes through, its writes accepted, leaves in the store
    the records of [currentRelease]'s name superseded, and deploys the
    target. *)
Lemma performRollback_success
      (Q : Store -> Prop) (r : Rollback)
      (currentRelease targetRelease : Release) (w : flaky.World X) :
  let x := performRollback r currentRelease targetRelease w in
  DryRun r = false ->
  ServerDryRun r = false ->
  ret_err (result_of x) = None ->
  updates_accepted (calls_of x) ->
  (forall st rel, Q st -> Q (put (set_status rel StatusSuperseded) st)) ->
  Q (releases (flaky.mem w)) ->
  Forall Q (journal (flaky.mem w)) ->
  targetRelease' (result_of x) = set_status targetRelease StatusDeployed /\
  releases (flaky.mem (world_of x)) =
  map (supersede_record
         (deployed (Name currentRelease) (releases (flaky.mem w))))
      (releases (flaky.mem w)) /\
  Forall Q (journal (flaky.mem (world_of x))).
Proof.
  destruct r as [ver tmo wt wfj dh dr rc fc cof mh sdr].
  cbn [DryRun ServerDryRun]. intros Hd Hsd Herr Hacc HQ Hs Hj.
  subst. revert Herr Hacc. unfold performRollback.
  cbn [DryRun ServerDryRun Version MaxHistory Force DisableHooks
       CleanupOnFail Recreate Wait WaitForJobs Timeout].
  run_engine; intros Herr Hacc; try discriminate.
  all: repeat match goal with
       | H : flaky.lift _ _ = (_, _) |- _ =>
         apply flaky_frame in H; destruct H as [? ?]
       end.
  all: split; [reflexivity|].
  all: match goal with
       | Hd : deployed _ (releases (flaky.mem ?wk)) = _ |- _ =>
         assert (Hr : releases (flaky.mem wk) = releases (flaky.mem w))
           by congruence;
         assert (Hjj : journal (flaky.mem wk) = journal (flaky.mem w))
           by congruence;
         rewrite Hr in Hd; rewrite Hd
       end.
  all: try (rewrite Hr, Hjj; cbn [map]; split; [|assumption];
            symmetry; apply map_id).
  all: match goal with
       | E : supersede ?l ?wk = (_, ?w', ?t) |- _ =>
         let S := fresh "S" in
         pose proof (supersede_world Q l wk HQ) as S;
         cbn [flaky.mem] in S; rewrite Hr, Hjj in S; specialize (S Hs Hj);
         cbv zeta in S; unfold world_of, calls_of in S; rewrite E in S;
         cbn [fst snd] in S;
         assert (Hloop : updates_accepted t)
           by (intros rls err Hin; apply (Hacc rls err); cbn; in_tail);
         specialize (S Hloop); tauto
       end.
Qed.

(** A rollback that goes through has written back, as superseded, every
    release the store listed as deployed, whatever the store answered. *)
Lemma performRollback_requests
      (r : Rollback) (currentRelease targetRelease : Release)
      (w : flaky.World X) (rel : Release) :
  let x := performRollback r currentRelease targetRelease w in
  DryRun r = false ->
  ServerDryRun r = false ->
  ret_err (result_of x) = None ->
  In rel (deployed (Name currentRelease) (releases (flaky.mem w))) ->
  exists err, In (CUpdate (set_status rel StatusSuperseded) err) (calls_of x).
Proof.
  destruct r as [ver tmo wt wfj dh dr rc fc cof mh sdr].
  cbn [DryRun ServerDryRun]. intros Hd Hsd Herr Hin.
  subst. revert Herr. unfold performRollback.
  cbn [DryRun ServerDryRun Version MaxHistory Force DisableHooks
       CleanupOnFail Recreate Wait WaitForJobs Timeout].
  run_engine; intros Herr; try discriminate.
  all: repeat match goal with
       | H : flaky.lift _ _ = (_, _) |- _ =>
         apply flaky_frame in H; destruct H as [? ?]
       end.
  all: match goal with
       | Hd : deployed _ (releases (flaky.mem ?wk)) = _ |- _ =>
         assert (Hr : releases (flaky.mem wk) = releases (flaky.mem w))
           by congruence;
         rewrite Hr in Hd; rewrite Hd in Hin
       end.
  all: try (destruct Hin; fail).
  all: match goal with
       | E : supersede ?l ?wk = (_, _, ?t) |- _ =>
         destruct (supersede_requests l wk rel Hin) as [err Hreq];
         unfold calls_of in Hreq; rewrite E in Hreq; cbn [snd] in Hreq;
         exists err; in_tail
       end.
Qed.

#[local] Arguments performRollback : simpl never.

Ltac run_flaky :=
  unfold_calls;
  repeat (simpl in *; unfold flaky.lift in *;
          rewrite ?andb_false_r, ?andb_true_r; try split_answer).


End FlakyRun.
(** * The protocol on the history of "app" *)

Ltac in_trace := first [ left; reflexivity | right; in_trace ].

(** The default rollback of "app" goes through and returns what was
    applied; a failed cleanup returns both error texts. *)
Example rollback_app :
  result_of (fake.run fake.rollback fake.healthy) =
  (Some (kube.mkResult [] ["manifest-4"] []), None).
Proof. reflexivity. Qed.

Example cleanup_error_text :
  result_of (fake.run fake.with_cleanup fake.failing_apply) =
  (None,
   Some "an error occurred while cleaning up resources. original rollback error: boom: unable to cleanup resources: cannot delete B").
Proof. reflexivity. Qed.

Lemma prepareRollback_draft_witness :
  prepareRollback fake.rollback "app" (fake.world fake.healthy) =
  (inl (fake.current, fake.draft),
   fake.world (fake.tick fake.healthy),
   [CLast "app" (inl fake.current);
    CGet "app" 4 (inl (fake.app 4 release.StatusSuperseded));
    CNow 1000]).
Proof.
  refine (prepareRollback_draft
            fake.rollback "app" (fake.world fake.healthy)
            (fake.world fake.healthy) (fake.world fake.healthy)
            (fake.world (fake.tick fake.healthy))
            fake.current (fake.app 4 release.StatusSuperseded) 1000
            _ _ _ _ _ _ _).
  all: try reflexivity.
  split; reflexivity.
Defined.

Lemma apply_failure_policy_witness :
  In (CKubeUpdate ["manifest-5"] ["manifest-4"] false
                  (kube.mkResult ["A"; "B"] ["manifest-4"] []) (Some "boom"))
     (calls_of (fake.perform fake.with_cleanup fake.failing_apply)) /\
  apply_failure_outcome
    fake.with_cleanup fake.current fake.draft
    ["manifest-5"] ["manifest-4"] false
    (kube.mkResult ["A"; "B"] ["manifest-4"] []) "boom"
    (fake.perform fake.with_cleanup fake.failing_apply).
Proof.
  assert (Hin : In (CKubeUpdate ["manifest-5"] ["manifest-4"] false
                      (kube.mkResult ["A"; "B"] ["manifest-4"] [])
                      (Some "boom"))
                   (calls_of (fake.perform fake.with_cleanup
                                           fake.failing_apply)))
    by (cbn; in_trace).
  split; [exact Hin|].
  exact (apply_failure_policy _ _ _ _ _ _ _ _ _ Hin).
Defined.

(** C2 as stated fails: under server dry run the apply fails, cleanup on
    fail is set, and the created resources are not deleted. *)
Lemma server_dry_run_skips_cleanup :
  ~ (CleanupOnFail fake.server_dry_run = true ->
     forall original target force results err,
       In (CKubeUpdate original target force results (Some err))
          (calls_of (fake.run fake.server_dry_run fake.failing_apply)) ->
       exists deleted errs,
         In (CDelete (kube.Created results) deleted errs)
            (calls_of (fake.run fake.server_dry_run fake.failing_apply))).
Proof.
  intros Hclaim.
  destruct (Hclaim eq_refl ["manifest-5"] ["manifest-4"] false
                   (kube.mkResult ["A"; "B"] ["manifest-4"] []) "boom")
    as (deleted & errs & Hin).
  - cbn. in_trace.
  - cbn in Hin.
    repeat (destruct Hin as [Hin|Hin]; [discriminate Hin|]). exact Hin.
Qed.

Lemma wait_failure_policy_witness :
  In (CWait ["manifest-4"] 300 (Some "timed out"))
     (calls_of (fake.perform fake.with_wait fake.failing_wait)) /\
  wait_error (CWait ["manifest-4"] 300 (Some "timed out")) = Some "timed out" /\
  wait_failure_outcome
    fake.current fake.draft
    (CWait ["manifest-4"] 300 (Some "timed out")) "timed out"
    (fake.perform fake.with_wait fake.failing_wait).
Proof.
  assert (Hin : In (CWait ["manifest-4"] 300 (Some "timed out"))
                   (calls_of (fake.perform fake.with_wait fake.failing_wait)))
    by (cbn; in_trace).
  split; [exact Hin|]. split; [reflexivity|].
  exact (wait_failure_policy fake.with_wait _ _ _ _ _ Hin eq_refl).
Defined.

Lemma failure_status_witness :
  ret_err (result_of (fake.perform fake.with_wait fake.failing_wait)) =
  Some (errors_Wrap "timed out" "release app failed") /\
  failure_outcome fake.with_wait fake.draft
                  (fake.perform fake.with_wait fake.failing_wait).
Proof.
  split; [reflexivity|].
  exact (failure_status fake.with_wait fake.current fake.draft
                        (fake.world fake.failing_wait) _ eq_refl).
Defined.

(** C4 as stated fails: the manifest of the current release does not
    build, the run ends in an error, and the stored target is still
    pending. *)
Lemma build_failure_leaves_target_pending :
  ~ (forall err,
        snd (result_of (fake.run fake.rollback fake.failing_build)) =
        Some err ->
        exists target,
          memstore.get "app" 6
            (memstore.releases
               (world_of (fake.run fake.rollback fake.failing_build))) =
          Some target /\
          release.status target = release.StatusFailed).
Proof.
  intros Hclaim.
  destruct (Hclaim
              (errors_Wrap "bad manifest"
                 "unable to build kubernetes objects from current release manifest")
              eq_refl) as (target & Hget & Hstatus).
  cbn in Hget. injection Hget as <-. discriminate Hstatus.
Qed.

(** C5 as stated fails: a dry run does call [IsReachable]. *)
Lemma dry_run_calls_IsReachable :
  ~ (DryRun fake.dry_run = true ->
     none_of is_IsReachable (calls_of (fake.run fake.dry_run fake.healthy))).
Proof.
  intros Hclaim. specialize (Hclaim eq_refl). discriminate Hclaim.
Qed.

Lemma dry_run_touches_no_state_witness :
  DryRun fake.dry_run = true /\
  none_of is_store_write (calls_of (fake.run fake.dry_run fake.healthy)) /\
  none_of is_cluster_work (calls_of (fake.run fake.dry_run fake.healthy)) /\
  fst (result_of (fake.run fake.dry_run fake.healthy)) = None /\
  hd_error (calls_of (fake.run fake.dry_run fake.healthy)) =
  Some (CIsReachable None).
Proof.
  split; [reflexivity|].
  destruct (dry_run_touches_no_state
              fake.dry_run "app" (fake.world fake.healthy) eq_refl)
    as (Hstore & Hcluster & Hres & Hhead & _).
  split; [exact Hstore|]. split; [exact Hcluster|]. split; [exact Hres|].
  exact (Hhead eq_refl).
Defined.

Lemma server_dry_run_needs_capability_witness :
  ServerDryRun fake.server_dry_run = true /\
  kube.ServerDryRunnable (fake.world fake.no_capability) = false /\
  fake.run fake.server_dry_run fake.no_capability =
  ((None, Some "the kube client doesn't support server dry run"),
   fake.world fake.no_capability, []).
Proof.
  split; [reflexivity|]. split; [reflexivity|].
  exact (server_dry_run_needs_capability
           fake.server_dry_run "app" (fake.world fake.no_capability)
           eq_refl eq_refl).
Defined.

Lemma server_dry_run_persists_nothing_witness :
  ServerDryRun fake.server_dry_run = true /\
  none_of is_store_write
          (calls_of (fake.run fake.server_dry_run fake.healthy)) /\
  none_of is_after_apply
          (calls_of (fake.run fake.server_dry_run fake.healthy)) /\
  result_of (fake.run fake.server_dry_run fake.healthy) =
  (Some (kube.mkResult [] ["manifest-4"] []), None) /\
  targetRelease'
    (result_of (fake.perform fake.server_dry_run (fake.dry fake.healthy))) =
  release.set_status fake.draft release.StatusDeployed.
Proof.
  split; [reflexivity|].
  destruct (server_dry_run_persists_nothing
              fake.server_dry_run "app" (fake.world fake.healthy) eq_refl)
    as (Hstore & Hafter & Hlast & Hperform).
  split; [exact Hstore|]. split; [exact Hafter|]. split.
  - apply (Hlast ["manifest-5"] ["manifest-4"] false
                 (kube.mkResult [] ["manifest-4"] [])).
    cbn. in_trace.
  - unfold fake.perform.
    erewrite Hperform; reflexivity.
Defined.



Lemma prepareRollback_twice_witness :
  match result_of (prepareRollback fake.rollback "app"
                                   (fake.world fake.healthy)),
        result_of (prepareRollback fake.rollback "app"
                                   (fake.world (fake.tick fake.healthy))) with
  | inl (current1, target1), inl (current2, target2) =>
    current1 = current2 /\
    target2 =
    release.set_last_deployed target1
      (release.LastDeployed (release.Info_ target2))
  | inr err1, inr err2 => err1 = err2
  | _, _ => False
  end.
Proof.
  apply (prepareRollback_twice fake.rollback "app"
           (fake.world fake.healthy) (fake.world (fake.tick fake.healthy))).
  - reflexivity.
  - intros version. reflexivity.
Defined.

Lemma error_comes_with_nil_result_witness :
  result_of (fake.run fake.rollback fake.failing_apply) =
  (None, Some "boom") /\
  (None : option kube.Result) = None.
Proof.
  split; [reflexivity|].
  exact (error_comes_with_nil_result
           fake.rollback "app" (fake.world fake.failing_apply)
           None "boom" eq_refl).
Defined.

#[local] Arguments supersede : simpl never.
#[local] Arguments performRollback : simpl never.

(** * More of the engine: pre-flight, resolution, failures, bookkeeping *)

Lemma none_of_app (p : Call -> bool) (l1 l2 : list Call) :
  none_of p (l1 ++ l2) <-> none_of p l1 /\ none_of p l2.
Proof. unfold none_of. rewrite forallb_app. apply andb_true_iff. Qed.

Lemma none_of_cons (p : Call -> bool) (c : Call) (l : list Call) :
  none_of p (c :: l) <-> p c = false /\ none_of p l.
Proof.
  unfold none_of. cbn [forallb]. rewrite andb_true_iff, negb_true_iff.
  reflexivity.
Qed.

Lemma none_of_updates (p : Call -> bool) (l : list Call) :
  (forall c, is_Update c = true -> p c = false) ->
  (forall c, In c l -> is_Update c = true) ->
  none_of p l.
Proof.
  intros Hp Hl. unfold none_of. apply forallb_forall. intros c Hin.
  rewrite (Hp c (Hl c Hin)). reflexivity.
Qed.

(** Name the run and set the property aside, so that the run is evaluated
    once and on its own. *)
Ltac name_run :=
  lazymatch goal with
  | |- let x := ?t in @?P x =>
    change (P t); remember P as the_goal eqn:Hgoal;
    cut (forall run, run = t -> the_goal run);
    [ let H := fresh in intros H; exact (H t eq_refl) | ]
  end.

Ltac end_run :=
  intros ? ->;
  match goal with H : ?g = _ |- ?g _ => subst g end;
  cbv beta.

Ltac in_cases :=
  repeat match goal with
  | H : In _ (_ :: _) |- _ => destruct H as [H|H]
  | H : In _ [] |- _ => destruct H
  | H : In _ (_ ++ _) |- _ => apply in_app_or in H; destruct H as [H|H]
  | H : _ \/ _ |- _ => destruct H as [H|H]
  end.

Ltac find_in := first [ left; reflexivity | right; find_in ].

Ltac unfold_flags :=
  cbn [DryRun ServerDryRun Version MaxHistory Force DisableHooks
       CleanupOnFail Recreate Wait WaitForJobs Timeout].

Section PerformCalls.

Context {W : Type}.
Context {KubeClient : kube.Interface W}.
Context {Releases : storage.Storage W}.
Context {Action : helpers.Helpers W}.

Lemma performRollback_calls
      (r : Rollback) (currentRelease targetRelease : release.Release)
      (w : W) (c : Call) :
  In c (calls_of (performRollback r currentRelease targetRelease w)) ->
  is_perform_call c = true.
Proof.
  destruct r. unfold performRollback. unfold_flags.
  run_engine; intros Hin; in_cases; subst; try reflexivity;
    try contradiction.
  all: match goal with
       | E : supersede ?l ?w = (_, _, ?t), H : In ?c ?t |- _ =>
         pose proof (supersede_calls_In l w c) as Hl;
         rewrite E in Hl; specialize (Hl H); destruct c; try discriminate;
         reflexivity
       end.
Qed.

Lemma supersede_cons (rel : release.Release) (rest : list release.Release) :
  supersede (W := W) (rel :: rest) =
  (cfg_recordRelease (release.set_status rel release.StatusSuperseded) ;;;
   supersede rest).
Proof. reflexivity. Qed.

Lemma supersede_each (l : list release.Release) (w : W) :
  Forall2 supersedes l (calls_of (supersede l w)).
Proof.
  revert w. induction l as [|rel l IH]; intros w; [constructor|].
  rewrite supersede_cons.
  unfold cfg_recordRelease, Releases_Update, bind, ret, call, calls_of.
  destruct (storage.Update (release.set_status rel release.StatusSuperseded)
                           w) as [e w1].
  specialize (IH w1). unfold calls_of in IH.
  destruct (supersede l w1) as [[u w2] t]. cbn [fst snd app] in *.
  constructor; [exists e; reflexivity | exact IH].
Qed.

Lemma supersede_writes_superseded
      (l : list release.Release) (w : W) (rls : release.Release)
      (err : option error) :
  In (CUpdate rls err) (calls_of (supersede l w)) ->
  release.status rls = release.StatusSuperseded.
Proof.
  intros Hin. pose proof (supersede_each l w) as Hall.
  induction Hall as [|rel c l' t [e ->] _ IH]; [destruct Hin|].
  destruct Hin as [Heq | Hin]; [|exact (IH Hin)].
  injection Heq as <- _. reflexivity.
Qed.

End PerformCalls.

Section PerformOk.

Context {W : Type}.
Context {KubeClient : kube.Interface W}.
Context {Releases : storage.Storage W}.
Context {Action : helpers.Helpers W}.

(** A [performRollback] that is no dry run and returns no error has applied
    the target, and returns what the apply answered. *)
Lemma performRollback_applied
      (r : Rollback) (currentRelease targetRelease : release.Release) (w : W) :
  let x := performRollback r currentRelease targetRelease w in
  DryRun r = false ->
  ret_err (result_of x) = None ->
  release.status (targetRelease' (result_of x)) = release.StatusDeployed /\
  exists original target results,
    In (CKubeUpdate original target (Force r) results None) (calls_of x) /\
    ret_result (result_of x) = Some results.
Proof.
  name_run. destruct r. unfold performRollback. unfold_flags.
  run_engine; end_run; intros Hdry Herr; try discriminate.
  all: split; [reflexivity|]; eexists _, _, _; split;
    [cbn; find_in | reflexivity].
Qed.

End PerformOk.

Ltac solve_none_of :=
  first
    [ reflexivity
    | apply none_of_cons; split; [reflexivity | solve_none_of]
    | apply none_of_app; split; solve_none_of
    | apply none_of_updates;
      [ let c := fresh "c" in
        let Hc := fresh "Hc" in
        intros c Hc; destruct c; try discriminate Hc; reflexivity
      | assumption ] ].

Ltac perform_calls :=
  repeat match goal with
  | E : performRollback ?r ?c ?t ?w = (_, _, ?tr) |- _ =>
    let H := fresh "Hperf" in
    pose proof (performRollback_calls r c t w) as H;
    rewrite E in H; unfold calls_of in H; cbn [snd] in H; revert E
  end; intros.

(** A call of [performRollback] is none of the calls of the pre-flight. *)
Ltac not_performed :=
  match goal with
  | H : forall c, In c ?l -> is_perform_call c = true, H' : In ?x ?l |- _ =>
    apply H in H'; try (is_var x; destruct x); cbn in H';
    try discriminate H'; cbn in *; congruence
  end.

Section PreFlight.

Context {W : Type}.
Context {KubeClient : kube.Interface W}.
Context {Releases : storage.Storage W}.
Context {Action : helpers.Helpers W}.


(** X2.  When the cluster (asked through the dry-run client under server dry
    run) is not reachable, the run returns the error of [IsReachable] with
    no result, and has made no other call: the store is neither configured
    nor read. *)
Theorem unreachable_cluster_stops_run
        (r : Rollback) (name : string) (w w' : W) (err : error) :
  (ServerDryRun r = true -> kube.ServerDryRunnable w = true) ->
  kube.IsReachable (if ServerDryRun r then kube.WithServerDryRun w else w) =
  (Some err, w') ->
  RunWithResult r name w =
  ((None, Some err), w',
   ((if ServerDryRun r then [CWithServerDryRun] else [])
    ++ [CIsReachable (Some err)])%list).
Proof.
  intros Hcap Hreach. unfold RunWithResult.
  destruct (ServerDryRun r).
  - rewrite (Hcap eq_refl). unfold_calls. cbn. rewrite Hreach. reflexivity.
  - unfold_calls. cbn. rewrite Hreach. reflexivity.
Qed.

(** X3.  A run that touches the store at all first sets its [MaxHistory] to the
    one of the action; a run that does not has failed in the pre-flight. *)
Theorem max_history_set_before_store_use
        (r : Rollback) (name : string) (w : W) :
  let x := RunWithResult r name w in
  match find is_store_call (calls_of x) with
  | Some c => c = CSetMaxHistory (MaxHistory r)
  | None => exists err, result_of x = (None, Some err)
  end.
Proof.
  destruct r. unfold RunWithResult, prepareRollback. unfold_flags.
  run_engine; try reflexivity; eauto.
Qed.


(** X4.  A name that does not validate is rejected before the revision is looked
    at and before the store is read; the error quotes the name. *)
Theorem invalid_name_is_rejected (r : Rollback) (name : string) (w : W) :
  helpers.ValidateReleaseName (W := W) name = false ->
  prepareRollback r name w =
  (inr ("prepareRollback: Release name is invalid: " ++ name), w, []).
Proof.
  intros Hname. unfold prepareRollback. rewrite Hname. reflexivity.
Qed.

(** X5.  A negative revision is rejected with [errInvalidRevision], and the store
    is not read. *)
Theorem negative_revision_is_rejected (r : Rollback) (name : string) (w : W) :
  helpers.ValidateReleaseName (W := W) name = true ->
  Version r < 0 ->
  prepareRollback r name w =
  (inr (helpers.errInvalidRevision (W := W)), w, []).
Proof.
  intros Hname Hneg. unfold prepareRollback. rewrite Hname.
  apply Z.ltb_lt in Hneg. rewrite Hneg. reflexivity.
Qed.

(** X6.  When [Last] or [Get] answers an error, the run returns that very error
    with no result; the failed lookup is its last call, and the run has
    written nothing to the store and asked nothing of the cluster. *)
Theorem lookup_failure_propagates
        (r : Rollback) (name : string) (w : W) (c : Call) (err : error) :
  let x := RunWithResult r name w in
  In c (calls_of x) ->
  read_error c = Some err ->
  result_of x = (None, Some err) /\
  last (calls_of x) CWithServerDryRun = c /\
  none_of is_store_write (calls_of x) /\
  none_of is_cluster_work (calls_of x).
Proof.
  name_run. destruct r. unfold RunWithResult, prepareRollback, none_of.
  unfold_flags.
  run_engine; end_run; intros Hin Herr; cbn in Hin; perform_calls; in_cases;
    try contradiction; subst; try discriminate Herr; try not_performed.
  all: cbn in Herr; inversion Herr; subst; repeat split; reflexivity.
Qed.

(** X7.  The resolution only reads: it makes at most three calls, none of them a
    write to the store or a call on the cluster. *)
Theorem prepareRollback_only_reads (r : Rollback) (name : string) (w : W) :
  let x := prepareRollback r name w in
  none_of is_store_write (calls_of x) /\
  none_of is_cluster_work (calls_of x) /\
  (List.length (calls_of x) <= 3)%nat.
Proof.
  name_run. unfold prepareRollback, none_of.
  run_engine; end_run; repeat split; try reflexivity; cbn; lia.
Qed.

(** X8.  When the store refuses to create the draft, the run returns the error of
    [Create] with no result; [Create] is its last call, so the cluster was
    asked nothing beyond the pre-flight; the record it was given is
    pending. *)
Theorem create_failure_aborts
        (r : Rollback) (name : string) (w : W)
        (rls : release.Release) (err : error) :
  let x := RunWithResult r name w in
  In (CCreate rls (Some err)) (calls_of x) ->
  result_of x = (None, Some err) /\
  last (calls_of x) CWithServerDryRun = CCreate rls (Some err) /\
  none_of is_cluster_work (calls_of x) /\
  release.status rls = release.StatusPendingRollback.
Proof.
  name_run. destruct r. unfold RunWithResult, prepareRollback, none_of.
  unfold_flags.
  run_engine; end_run; intros Hin; cbn in Hin; perform_calls; in_cases;
    try contradiction; try discriminate Hin; try not_performed.
  all: inversion Hin; subst; repeat split; reflexivity.
Qed.

(** X9.  Unless it is a server dry run, a run asks nothing of the cluster beyond
    the pre-flight before the store has accepted the pending draft: every
    build, hook, apply, wait or deletion comes after a successful [Create],
    and nothing was written to the store before it. *)
Theorem pending_record_before_cluster_work
        (r : Rollback) (name : string) (w : W) (c : Call) :
  let x := RunWithResult r name w in
  ServerDryRun r = false ->
  In c (calls_of x) ->
  is_cluster_work c = true ->
  exists before rls after,
    calls_of x = (before ++ CCreate rls None :: after)%list /\
    none_of is_cluster_work before /\
    none_of is_store_write before /\
    release.status rls = release.StatusPendingRollback /\
    In c after.
Proof.
  name_run. destruct r. unfold RunWithResult, prepareRollback, none_of.
  unfold_flags.
  run_engine; end_run; intros Hsdr Hin Hwork; try discriminate Hsdr;
    cbn in Hin; in_cases; try contradiction; subst;
    try discriminate Hwork.
  all: match goal with
       | |- exists before, exists _ _, ?l = _ /\ _ =>
         exists (firstn 5 l); cbn [firstn]; eexists _, _;
         split; [reflexivity|]
       end.
  all: repeat split; try reflexivity.
  all: first [ exact Hin | apply in_or_app; left; exact Hin ].
Qed.

(** X10.  A run without dry-run flags that returns no error has applied the
    target and returns what the apply answered; its last call is the
    [Update] that stores the target as [Deployed]. *)
Theorem success_ends_with_update
        (r : Rollback) (name : string) (w : W) (res : option kube.Result) :
  let x := RunWithResult r name w in
  DryRun r = false ->
  ServerDryRun r = false ->
  result_of x = (res, None) ->
  exists target original built results,
    last (calls_of x) CWithServerDryRun = CUpdate target None /\
    release.status target = release.StatusDeployed /\
    In (CKubeUpdate original built (Force r) results None) (calls_of x) /\
    res = Some results.
Proof.
  name_run. destruct r. unfold RunWithResult, prepareRollback.
  unfold_flags.
  run_engine; end_run; intros Hdry Hsdr Hres; try discriminate.
  all: match goal with
       | E : performRollback ?cfg ?cur ?tgt ?w' = _ |- _ =>
         pose proof (performRollback_applied cfg cur tgt w' eq_refl) as Hok;
         cbv zeta in Hok; unfold result_of, calls_of in Hok;
         rewrite E in Hok; cbn [fst snd] in Hok;
         destruct Hok as (Hst & original & built & results & Hin & Hr);
         [assumption|]
       end.
  all: eexists _, original, built, results.
  all: split; [rewrite !app_comm_cons; apply last_last|].
  all: split; [exact Hst|].
  all: split; [do 6 right; apply in_or_app; left; exact Hin|].
  all: inversion Hres; congruence.
Qed.

End PreFlight.

Section Perform.

Context {W : Type}.
Context {KubeClient : kube.Interface W}.
Context {Releases : storage.Storage W}.
Context {Action : helpers.Helpers W}.

Ltac loop_calls :=
  repeat match goal with
  | E : supersede ?l ?w = (_, _, ?t) |- _ =>
    let H := fresh "Hloop" in
    pose proof (supersede_calls_In l w) as H;
    rewrite E in H; unfold calls_of in H; cbn [snd] in H;
    revert E
  end; intros.

(** A call of the supersession loop is an [Update]. *)
Ltac not_in_loop :=
  match goal with
  | H : forall c, In c ?l -> is_Update c = true, H' : In ?x ?l |- _ =>
    apply H in H'; try (is_var x; destruct x); cbn in H';
    try discriminate H'; cbn in *; congruence
  end.

Ltac perform :=
  name_run;
  match goal with r : Rollback |- _ => destruct r end;
  unfold performRollback, none_of; unfold_flags; run_engine.

(** X11.  A manifest that does not build ends [performRollback] at once: the
    failed build is the last call, of one call for the manifest of the
    current release and of two for the manifest of the target; the error is
    wrapped with the name of the manifest; the two records are as they were
    and no result is returned. *)
Theorem manifests_must_build
        (r : Rollback) (currentRelease targetRelease : release.Release)
        (w : W) (c : Call) (err : error) :
  let x := performRollback r currentRelease targetRelease w in
  In c (calls_of x) ->
  build_error c = Some err ->
  currentRelease' (result_of x) = currentRelease /\
  targetRelease' (result_of x) = targetRelease /\
  ret_result (result_of x) = None /\
  ((calls_of x = [c] /\
    c = CBuild (release.Manifest currentRelease) false (inr err) /\
    ret_err (result_of x) =
    Some (errors_Wrap err
            "unable to build kubernetes objects from current release manifest"))
   \/
   (exists current,
       calls_of x =
       [CBuild (release.Manifest currentRelease) false (inl current); c] /\
       c = CBuild (release.Manifest targetRelease) false (inr err) /\
       ret_err (result_of x) =
       Some (errors_Wrap err
               "unable to build kubernetes objects from new release manifest"))).
Proof.
  perform; end_run; intros Hin Herr; cbn in Hin; loop_calls; in_cases;
    try contradiction; subst; try discriminate Herr; try not_in_loop.
  all: cbn in Herr; inversion Herr; subst.
  all: split; [reflexivity|]; split; [reflexivity|]; split; [reflexivity|].
  all: first [ left; repeat split; reflexivity
             | right; eexists; repeat split; reflexivity ].
Qed.

(** X12.  The apply is given the resources built from the manifests of the
    current and of the target release, which are the first two calls and
    are built without validation, and the [Force] flag of the action. *)
Theorem apply_uses_built_resources
        (r : Rollback) (currentRelease targetRelease : release.Release)
        (w : W) (original target : kube.ResourceList) (force : bool)
        (results : kube.Result) (err : option error) :
  let x := performRollback r currentRelease targetRelease w in
  In (CKubeUpdate original target force results err) (calls_of x) ->
  force = Force r /\
  firstn 2 (calls_of x) =
  [CBuild (release.Manifest currentRelease) false (inl original);
   CBuild (release.Manifest targetRelease) false (inl target)].
Proof.
  perform; end_run; intros Hin; cbn in Hin; loop_calls; in_cases;
    try contradiction; try discriminate Hin; try not_in_loop.
  all: inversion Hin; subst; split; reflexivity.
Qed.

(** X13.  A hook is run only when hooks are not disabled and the run is no dry
    run of either kind; it is given the target as it was drafted and the
    [Timeout] of the action.  The pre-rollback hook is the third call, right
    after the two builds; the post-rollback hook comes after a successful
    apply. *)
Theorem hooks_run_on_the_draft
        (r : Rollback) (currentRelease targetRelease : release.Release)
        (w : W) (rl : release.Release) (hook : release.HookEvent)
        (timeout : Duration) (err : option error) :
  let x := performRollback r currentRelease targetRelease w in
  In (CExecHook rl hook timeout err) (calls_of x) ->
  rl = targetRelease /\
  timeout = Timeout r /\
  DisableHooks r = false /\ DryRun r = false /\ ServerDryRun r = false /\
  match hook with
  | release.HookPreRollback =>
    nth_error (calls_of x) 2 = Some (CExecHook rl hook timeout err)
  | release.HookPostRollback =>
    exists original target results,
      In (CKubeUpdate original target (Force r) results None) (calls_of x)
  end.
Proof.
  perform; end_run; intros Hin; cbn in Hin; loop_calls; in_cases;
    try contradiction; try discriminate Hin; try not_in_loop.
  all: inversion Hin; subst; repeat split; try reflexivity.
  all: eexists _, _, _; cbn; find_in.
Qed.

(** X14.  A hook that fails ends [performRollback]: its error is returned as it
    is, with no result; the hook is the last call, the two records are as
    they were and the store was not touched.  When it is the pre-rollback
    hook, nothing was applied. *)
Theorem hook_failure_is_returned
        (r : Rollback) (currentRelease targetRelease : release.Release)
        (w : W) (rl : release.Release) (hook : release.HookEvent)
        (timeout : Duration) (err : error) :
  let x := performRollback r currentRelease targetRelease w in
  In (CExecHook rl hook timeout (Some err)) (calls_of x) ->
  ret_err (result_of x) = Some err /\
  ret_result (result_of x) = None /\
  currentRelease' (result_of x) = currentRelease /\
  targetRelease' (result_of x) = targetRelease /\
  last (calls_of x) CWithServerDryRun = CExecHook rl hook timeout (Some err) /\
  none_of is_store_call (calls_of x) /\
  (hook = release.HookPreRollback -> none_of is_apply (calls_of x)).
Proof.
  perform; end_run; intros Hin; cbn in Hin; loop_calls; in_cases;
    try contradiction; try discriminate Hin; try not_in_loop.
  all: inversion Hin; subst; repeat split; try reflexivity.
  all: intros Hpre; discriminate Hpre.
Qed.

(** X15.  A wait is made only under [Wait], after a successful apply, on the
    resources built for the target and with the [Timeout] of the action;
    it is [WaitWithJobs] exactly when [WaitForJobs] is set. *)
Theorem wait_follows_flags
        (r : Rollback) (currentRelease targetRelease : release.Release)
        (w : W) (c : Call) :
  let x := performRollback r currentRelease targetRelease w in
  In c (calls_of x) ->
  is_wait c = true ->
  Wait r = true /\
  exists original target results err,
    In (CKubeUpdate original target (Force r) results None) (calls_of x) /\
    c = if WaitForJobs r
        then CWaitWithJobs target (Timeout r) err
        else CWait target (Timeout r) err.
Proof.
  perform; end_run; intros Hin Hwait; cbn in Hin; loop_calls; in_cases;
    try contradiction; subst; try discriminate Hwait; try not_in_loop.
  all: split; [reflexivity|]; eexists _, _, _, _; split;
    [cbn; find_in | reflexivity].
Qed.

(** X16.  Pods are recreated only under [Recreate], after a successful apply and
    for the resources it updated; what [recreate] answers does not end the
    run: another call always follows. *)
Theorem recreate_is_best_effort
        (r : Rollback) (currentRelease targetRelease : release.Release)
        (w : W) (resources : kube.ResourceList) (err : option error) :
  let x := performRollback r currentRelease targetRelease w in
  In (CRecreate resources err) (calls_of x) ->
  Recreate r = true /\
  (exists original target results,
      In (CKubeUpdate original target (Force r) results None) (calls_of x) /\
      resources = kube.Updated results) /\
  exists before next after,
    calls_of x = (before ++ CRecreate resources err :: next :: after)%list.
Proof.
  perform; end_run; intros Hin; cbn in Hin; loop_calls; in_cases;
    try contradiction; try discriminate Hin; try not_in_loop.
  all: inversion Hin; subst; split; [reflexivity|]; split;
    [eexists _, _, _; split; [cbn; find_in | reflexivity]|].
  all: unfold calls_of; cbn [snd].
  all: match goal with
       | |- exists before, exists _ _, ?l = _ =>
         first [ exists (firstn 3 l); cbn [firstn]; eexists _, _;
                 reflexivity
               | exists (firstn 4 l); cbn [firstn]; eexists _, _;
                 reflexivity ]
       end.
Qed.

(** X17.  Resources are deleted only under [CleanupOnFail], outside a server dry
    run, after a failed apply and for the resources that apply created; the
    deletion is the last call. *)
Theorem cleanup_only_after_failed_apply
        (r : Rollback) (currentRelease targetRelease : release.Release)
        (w : W) (resources : kube.ResourceList) (deleted : kube.Result)
        (errs : option (list error)) :
  let x := performRollback r currentRelease targetRelease w in
  In (CDelete resources deleted errs) (calls_of x) ->
  CleanupOnFail r = true /\
  ServerDryRun r = false /\
  last (calls_of x) CWithServerDryRun = CDelete resources deleted errs /\
  exists original target results err,
    In (CKubeUpdate original target (Force r) results (Some err))
       (calls_of x) /\
    resources = kube.Created results.
Proof.
  perform; end_run; intros Hin; cbn in Hin; loop_calls; in_cases;
    try contradiction; try discriminate Hin; try not_in_loop.
  all: inversion Hin; subst; repeat split; try reflexivity.
  all: eexists _, _, _, _; split; [cbn; find_in | reflexivity].
Qed.

(** X18.  When the listing of the deployed releases fails with an error other
    than the one that says there is none, [performRollback] returns that
    error with neither a release nor a result; the listing is the last call,
    so no record is superseded, and the target stays as drafted although it
    was applied. *)
Theorem deployed_listing_failure
        (r : Rollback) (currentRelease targetRelease : release.Release)
        (w : W) (n : string) (deployed : list release.Release) (err : error) :
  let x := performRollback r currentRelease targetRelease w in
  In (CDeployedAll n deployed (Some err)) (calls_of x) ->
  strings_Contains err "has no deployed releases" = false ->
  n = release.Name currentRelease /\
  ret_release (result_of x) = false /\
  ret_result (result_of x) = None /\
  ret_err (result_of x) = Some err /\
  targetRelease' (result_of x) = targetRelease /\
  last (calls_of x) CWithServerDryRun = CDeployedAll n deployed (Some err) /\
  none_of is_store_write (calls_of x) /\
  exists original target results,
    In (CKubeUpdate original target (Force r) results None) (calls_of x).
Proof.
  perform; end_run; intros Hin Hother; cbn in Hin; loop_calls; in_cases;
    try contradiction; try discriminate Hin; try not_in_loop.
  all: inversion Hin; subst.
  all: try match goal with
           | H : negb (strings_Contains ?e _) = false |- _ =>
             rewrite Hother in H; discriminate H
           end.
  all: repeat split; try reflexivity.
  all: eexists _, _, _; cbn; find_in.
Qed.

(** X19.  When the listing of the deployed releases answers no error, or the
    error that says there is none, [performRollback] goes through: each
    release of the list is written back as superseded, in the order of the
    list and whatever the store answers, these writes end the run, and the
    target is returned as [Deployed]. *)
Theorem missing_deployed_is_tolerated
        (r : Rollback) (currentRelease targetRelease : release.Release)
        (w : W) (n : string) (deployed : list release.Release)
        (derr : option error) :
  let x := performRollback r currentRelease targetRelease w in
  In (CDeployedAll n deployed derr) (calls_of x) ->
  (forall err, derr = Some err ->
               strings_Contains err "has no deployed releases" = true) ->
  n = release.Name currentRelease /\
  ret_err (result_of x) = None /\
  currentRelease' (result_of x) = currentRelease /\
  targetRelease' (result_of x) =
  release.set_status targetRelease release.StatusDeployed /\
  exists before updates,
    calls_of x = (before ++ CDeployedAll n deployed derr :: updates)%list /\
    Forall2 supersedes deployed updates.
Proof.
  perform; end_run; intros Hin Hnone; cbn in Hin; loop_calls; in_cases;
    try contradiction; try discriminate Hin; try not_in_loop.
  all: inversion Hin; subst.
  all: try match goal with
           | H : negb (strings_Contains ?e _) = true |- _ =>
             rewrite (Hnone e eq_refl) in H; discriminate H
           end.
  all: split; [reflexivity|]; split; [reflexivity|]; split; [reflexivity|];
    split; [reflexivity|].
  all: unfold calls_of; cbn [snd].
  all: match goal with
       | |- exists before, exists _, ?l = _ /\ _ =>
         first [ exists (firstn 3 l); cbn [firstn]; eexists; split;
                 [reflexivity|]
               | exists (firstn 4 l); cbn [firstn]; eexists; split;
                 [reflexivity|]
               | exists (firstn 5 l); cbn [firstn]; eexists; split;
                 [reflexivity|]
               | exists (firstn 6 l); cbn [firstn]; eexists; split;
                 [reflexivity|]
               | exists (firstn 7 l); cbn [firstn]; eexists; split;
                 [reflexivity|] ]
       end.
  all: try (constructor; fail).
  all: match goal with
       | E : supersede ?l ?wk = (_, _, ?t) |- _ =>
         pose proof (supersede_each l wk) as Heach;
         unfold calls_of in Heach; rewrite E in Heach; cbn [snd] in Heach;
         rewrite app_nil_r; exact Heach
       end.
Qed.

(** X20.  A [performRollback] that is no dry run and returns no error returns
    the target with its status set to [Deployed] and nothing else changed,
    the current release as it was, and what the apply answered; it has
    deleted nothing, and the records it has written are superseded ones. *)
Theorem success_deploys_target
        (r : Rollback) (currentRelease targetRelease : release.Release)
        (w : W) :
  let x := performRollback r currentRelease targetRelease w in
  DryRun r = false ->
  ret_err (result_of x) = None ->
  targetRelease' (result_of x) =
  release.set_status targetRelease release.StatusDeployed /\
  currentRelease' (result_of x) = currentRelease /\
  ret_release (result_of x) = true /\
  (exists original target results,
      In (CKubeUpdate original target (Force r) results None) (calls_of x) /\
      ret_result (result_of x) = Some results) /\
  none_of is_Delete (calls_of x) /\
  forall rls err,
    In (CUpdate rls err) (calls_of x) ->
    release.status rls = release.StatusSuperseded.
Proof.
  perform; end_run; intros Hdry Herr; try discriminate; loop_calls.
  all: split; [reflexivity|]; split; [reflexivity|]; split; [reflexivity|].
  all: split; [eexists _, _, _; split; [cbn; find_in | reflexivity]|].
  all: split; [unfold calls_of; cbn [snd]; solve_none_of|].
  all: intros rls err Hin; cbn in Hin; in_cases; try contradiction;
    try discriminate Hin.
  all: match goal with
       | E : supersede ?l ?wk = (_, _, ?t), H : In _ ?t |- _ =>
         apply (supersede_writes_superseded l wk rls err);
         unfold calls_of; rewrite E; exact H
       end.
Qed.

End Perform.

Section Defaults.

Context {W : Type}.
Context {KubeClient : kube.Interface W}.
Context {Releases : storage.Storage W}.
Context {Action : helpers.Helpers W}.

Ltac loop_calls :=
  repeat match goal with
  | E : supersede ?l ?w = (_, _, ?t) |- _ =>
    let H := fresh "Hloop" in
    pose proof (supersede_calls_In l w) as H;
    rewrite E in H; unfold calls_of in H; cbn [snd] in H;
    revert E
  end; intros.

Ltac not_in_loop :=
  match goal with
  | H : forall c, In c ?l -> is_Update c = true, H' : In ?x ?l |- _ =>
    apply H in H'; try (is_var x; destruct x); cbn in H';
    try discriminate H'; cbn in *; congruence
  end.

(** X21.  The action that [NewRollback] returns, run as it is: it rolls back to
    the revision before the current one, never switches the client to dry
    run, waits for nothing, recreates no pod and deletes nothing; its hooks
    run without a timeout and it applies without force. *)
Theorem NewRollback_defaults (name : string) (w : W) :
  let x := RunWithResult NewRollback name w in
  none_of is_WithServerDryRun (calls_of x) /\
  none_of is_wait (calls_of x) /\
  none_of is_Recreate (calls_of x) /\
  none_of is_Delete (calls_of x) /\
  (forall rl hook timeout err,
      In (CExecHook rl hook timeout err) (calls_of x) -> timeout = 0) /\
  (forall original target force results err,
      In (CKubeUpdate original target force results err) (calls_of x) ->
      force = false) /\
  (forall n version res,
      In (CGet n version res) (calls_of x) ->
      exists current,
        In (CLast name (inl current)) (calls_of x) /\
        n = name /\ version = int_sub (release.Version current) 1).
Proof.
  name_run. unfold NewRollback, RunWithResult, prepareRollback,
    performRollback.
  unfold_flags. run_engine; end_run; loop_calls.
  all: unfold calls_of; cbn [snd].
  all: split; [solve_none_of|]; split; [solve_none_of|];
    split; [solve_none_of|]; split; [solve_none_of|].
  all: split; [|split].
  all: intros; in_cases; try contradiction;
    try match goal with H : _ = _ :> Call |- _ => inversion H end;
    try not_in_loop; subst; try reflexivity.
  all: eexists; split; [cbn; find_in | split; reflexivity].
Qed.

End Defaults.

(** * The engine on further inputs *)

Lemma unreachable_cluster_stops_run_witness :
  kube.IsReachable (fake.world scripted.unreachable) =
  (Some "cluster unreachable", fake.world scripted.unreachable) /\
  fake.run fake.rollback scripted.unreachable =
  ((None, Some "cluster unreachable"), fake.world scripted.unreachable,
   [CIsReachable (Some "cluster unreachable")]).
Proof.
  split; [reflexivity|].
  refine (unreachable_cluster_stops_run
            fake.rollback "app" (fake.world scripted.unreachable)
            (fake.world scripted.unreachable) "cluster unreachable" _ _).
  - intros Hdry. discriminate Hdry.
  - reflexivity.
Defined.

Lemma invalid_name_is_rejected_witness :
  helpers.ValidateReleaseName (W := memstore.World fake.Cluster) "App" = false /\
  prepareRollback fake.rollback "App" (fake.world fake.healthy) =
  (inr "prepareRollback: Release name is invalid: App",
   fake.world fake.healthy, []).
Proof.
  split; [reflexivity|].
  exact (invalid_name_is_rejected
           fake.rollback "App" (fake.world fake.healthy) eq_refl).
Defined.

Lemma negative_revision_is_rejected_witness :
  Version scripted.negative < 0 /\
  prepareRollback scripted.negative "app" (fake.world fake.healthy) =
  (inr "invalid release revision", fake.world fake.healthy, []).
Proof.
  split; [reflexivity|].
  exact (negative_revision_is_rejected
           scripted.negative "app" (fake.world fake.healthy)
           eq_refl eq_refl).
Defined.

Lemma lookup_failure_propagates_witness :
  In (CLast "ghost" (inr memstore.not_found))
     (calls_of (RunWithResult fake.rollback "ghost"
                              (fake.world fake.healthy))) /\
  result_of (RunWithResult fake.rollback "ghost" (fake.world fake.healthy)) =
  (None, Some memstore.not_found).
Proof.
  assert (Hin : In (CLast "ghost" (inr memstore.not_found))
                   (calls_of (RunWithResult fake.rollback "ghost"
                                            (fake.world fake.healthy))))
    by (vm_compute; in_trace).
  split; [exact Hin|].
  exact (proj1 (lookup_failure_propagates
                  fake.rollback "ghost" (fake.world fake.healthy)
                  _ memstore.not_found Hin eq_refl)).
Defined.

Lemma create_failure_aborts_witness :
  In (CCreate fake.draft (Some "release: already exists"))
     (calls_of (RunWithResult fake.rollback "app" scripted.conflict)) /\
  result_of (RunWithResult fake.rollback "app" scripted.conflict) =
  (None, Some "release: already exists") /\
  none_of is_cluster_work
          (calls_of (RunWithResult fake.rollback "app" scripted.conflict)).
Proof.
  assert (Hin : In (CCreate fake.draft (Some "release: already exists"))
                   (calls_of (RunWithResult fake.rollback "app"
                                            scripted.conflict)))
    by (vm_compute; in_trace).
  split; [exact Hin|].
  destruct (create_failure_aborts fake.rollback "app" scripted.conflict
                                  _ _ Hin) as (Hres & _ & Hwork & _).
  split; [exact Hres | exact Hwork].
Defined.

Lemma pending_record_before_cluster_work_witness :
  In (CBuild "manifest-5" false (inl ["manifest-5"]))
     (calls_of (fake.run fake.rollback fake.healthy)) /\
  exists before rls after,
    calls_of (fake.run fake.rollback fake.healthy) =
    (before ++ CCreate rls None :: after)%list /\
    none_of is_cluster_work before /\
    none_of is_store_write before /\
    release.status rls = release.StatusPendingRollback /\
    In (CBuild "manifest-5" false (inl ["manifest-5"])) after.
Proof.
  assert (Hin : In (CBuild "manifest-5" false (inl ["manifest-5"]))
                   (calls_of (fake.run fake.rollback fake.healthy)))
    by (vm_compute; in_trace).
  split; [exact Hin|].
  exact (pending_record_before_cluster_work
           fake.rollback "app" (fake.world fake.healthy) _
           eq_refl Hin eq_refl).
Defined.

Lemma success_ends_with_update_witness :
  result_of (fake.run fake.rollback fake.healthy) =
  (Some (kube.mkResult [] ["manifest-4"] []), None) /\
  exists target,
    last (calls_of (fake.run fake.rollback fake.healthy)) CWithServerDryRun =
    CUpdate target None /\
    release.status target = release.StatusDeployed.
Proof.
  assert (Hres : result_of (fake.run fake.rollback fake.healthy) =
                 (Some (kube.mkResult [] ["manifest-4"] []), None))
    by (vm_compute; reflexivity).
  split; [exact Hres|].
  destruct (success_ends_with_update
              fake.rollback "app" (fake.world fake.healthy) _
              eq_refl eq_refl Hres)
    as (target & _ & _ & _ & Hlast & Hstatus & _).
  exists target. split; [exact Hlast | exact Hstatus].
Defined.

Lemma manifests_must_build_witness :
  In (CBuild "manifest-5" false (inr "bad manifest"))
     (calls_of (fake.perform fake.rollback fake.failing_build)) /\
  build_error (CBuild "manifest-5" false (inr "bad manifest")) =
  Some "bad manifest" /\
  targetRelease' (result_of (fake.perform fake.rollback fake.failing_build)) =
  fake.draft /\
  ret_result (result_of (fake.perform fake.rollback fake.failing_build)) =
  None.
Proof.
  assert (Hin : In (CBuild "manifest-5" false (inr "bad manifest"))
                   (calls_of (fake.perform fake.rollback fake.failing_build)))
    by (vm_compute; in_trace).
  split; [exact Hin|]. split; [reflexivity|].
  destruct (manifests_must_build
              fake.rollback fake.current fake.draft
              (fake.world fake.failing_build) _ "bad manifest" Hin eq_refl)
    as (_ & Htarget & Hresult & _).
  split; [exact Htarget | exact Hresult].
Defined.

Lemma apply_uses_built_resources_witness :
  In (CKubeUpdate ["manifest-5"] ["manifest-4"] false
                  (kube.mkResult [] ["manifest-4"] []) None)
     (calls_of (fake.perform fake.rollback fake.healthy)) /\
  firstn 2 (calls_of (fake.perform fake.rollback fake.healthy)) =
  [CBuild (release.Manifest fake.current) false (inl ["manifest-5"]);
   CBuild (release.Manifest fake.draft) false (inl ["manifest-4"])].
Proof.
  assert (Hin : In (CKubeUpdate ["manifest-5"] ["manifest-4"] false
                      (kube.mkResult [] ["manifest-4"] []) None)
                   (calls_of (fake.perform fake.rollback fake.healthy)))
    by (vm_compute; in_trace).
  split; [exact Hin|].
  exact (proj2 (apply_uses_built_resources
                  fake.rollback fake.current fake.draft
                  (fake.world fake.healthy) _ _ _ _ _ Hin)).
Defined.

Lemma hooks_run_on_the_draft_witness :
  In (CExecHook fake.draft release.HookPostRollback 300 None)
     (calls_of (fake.perform fake.rollback fake.healthy)) /\
  DisableHooks fake.rollback = false /\
  exists original target results,
    In (CKubeUpdate original target (Force fake.rollback) results None)
       (calls_of (fake.perform fake.rollback fake.healthy)).
Proof.
  assert (Hin : In (CExecHook fake.draft release.HookPostRollback 300 None)
                   (calls_of (fake.perform fake.rollback fake.healthy)))
    by (vm_compute; in_trace).
  split; [exact Hin|].
  destruct (hooks_run_on_the_draft
              fake.rollback fake.current fake.draft
              (fake.world fake.healthy) _ _ _ _ Hin)
    as (_ & _ & Hhooks & _ & _ & Hpost).
  split; [exact Hhooks | exact Hpost].
Defined.

Lemma hook_failure_is_returned_witness :
  In (CExecHook fake.draft release.HookPreRollback 300 (Some "hook failed"))
     (calls_of (fake.perform fake.rollback scripted.failing_hook)) /\
  ret_err (result_of (fake.perform fake.rollback scripted.failing_hook)) =
  Some "hook failed" /\
  none_of is_apply
          (calls_of (fake.perform fake.rollback scripted.failing_hook)).
Proof.
  assert (Hin : In (CExecHook fake.draft release.HookPreRollback 300
                              (Some "hook failed"))
                   (calls_of (fake.perform fake.rollback
                                           scripted.failing_hook)))
    by (vm_compute; in_trace).
  split; [exact Hin|].
  destruct (hook_failure_is_returned
              fake.rollback fake.current fake.draft
              (fake.world scripted.failing_hook) _ _ _ _ Hin)
    as (Herr & _ & _ & _ & _ & _ & Hpre).
  split; [exact Herr | exact (Hpre eq_refl)].
Defined.

Lemma wait_follows_flags_witness :
  In (CWait ["manifest-4"] 300 None)
     (calls_of (fake.perform fake.with_wait fake.healthy)) /\
  is_wait (CWait ["manifest-4"] 300 None) = true /\
  Wait fake.with_wait = true.
Proof.
  assert (Hin : In (CWait ["manifest-4"] 300 None)
                   (calls_of (fake.perform fake.with_wait fake.healthy)))
    by (vm_compute; in_trace).
  split; [exact Hin|]. split; [reflexivity|].
  exact (proj1 (wait_follows_flags
                  fake.with_wait fake.current fake.draft
                  (fake.world fake.healthy) _ Hin eq_refl)).
Defined.

Lemma recreate_is_best_effort_witness :
  In (CRecreate ["manifest-4"] None)
     (calls_of (fake.perform scripted.with_recreate fake.healthy)) /\
  exists before next after,
    calls_of (fake.perform scripted.with_recreate fake.healthy) =
    (before ++ CRecreate ["manifest-4"] None :: next :: after)%list.
Proof.
  assert (Hin : In (CRecreate ["manifest-4"] None)
                   (calls_of (fake.perform scripted.with_recreate
                                           fake.healthy)))
    by (vm_compute; in_trace).
  split; [exact Hin|].
  exact (proj2 (proj2 (recreate_is_best_effort
                         scripted.with_recreate fake.current fake.draft
                         (fake.world fake.healthy) _ _ Hin))).
Defined.

Lemma cleanup_only_after_failed_apply_witness :
  In (CDelete ["A"; "B"] (kube.mkResult [] [] ["A"; "B"])
              (Some ["cannot delete B"]))
     (calls_of (fake.perform fake.with_cleanup fake.failing_apply)) /\
  CleanupOnFail fake.with_cleanup = true /\
  ServerDryRun fake.with_cleanup = false.
Proof.
  assert (Hin : In (CDelete ["A"; "B"] (kube.mkResult [] [] ["A"; "B"])
                            (Some ["cannot delete B"]))
                   (calls_of (fake.perform fake.with_cleanup
                                           fake.failing_apply)))
    by (vm_compute; in_trace).
  split; [exact Hin|].
  destruct (cleanup_only_after_failed_apply
              fake.with_cleanup fake.current fake.draft
              (fake.world fake.failing_apply) _ _ _ Hin)
    as (Hflag & Hdry & _).
  split; [exact Hflag | exact Hdry].
Defined.

Lemma deployed_listing_failure_witness :
  In (CDeployedAll "app" [] (Some "connection refused"))
     (calls_of (performRollback fake.rollback fake.current fake.draft
                                scripted.unlistable)) /\
  strings_Contains "connection refused" "has no deployed releases" = false /\
  ret_release
    (result_of (performRollback fake.rollback fake.current fake.draft
                                scripted.unlistable)) = false /\
  ret_err
    (result_of (performRollback fake.rollback fake.current fake.draft
                                scripted.unlistable)) =
  Some "connection refused".
Proof.
  assert (Hin : In (CDeployedAll "app" [] (Some "connection refused"))
                   (calls_of (performRollback fake.rollback fake.current
                                              fake.draft
                                              scripted.unlistable)))
    by (vm_compute; in_trace).
  assert (Hother : strings_Contains "connection refused"
                                    "has no deployed releases" = false)
    by (vm_compute; reflexivity).
  split; [exact Hin|]. split; [exact Hother|].
  destruct (deployed_listing_failure
              fake.rollback fake.current fake.draft scripted.unlistable
              _ _ _ Hin Hother)
    as (_ & Hrel & _ & Herr & _).
  split; [exact Hrel | exact Herr].
Defined.

Lemma missing_deployed_is_tolerated_witness :
  In (CDeployedAll "app" [fake.current] None)
     (calls_of (fake.perform fake.rollback fake.healthy)) /\
  ret_err (result_of (fake.perform fake.rollback fake.healthy)) = None /\
  exists before updates,
    calls_of (fake.perform fake.rollback fake.healthy) =
    (before ++ CDeployedAll "app" [fake.current] None :: updates)%list /\
    Forall2 supersedes [fake.current] updates.
Proof.
  assert (Hin : In (CDeployedAll "app" [fake.current] None)
                   (calls_of (fake.perform fake.rollback fake.healthy)))
    by (vm_compute; in_trace).
  split; [exact Hin|].
  destruct (missing_deployed_is_tolerated
              fake.rollback fake.current fake.draft
              (fake.world fake.healthy) _ _ _ Hin)
    as (_ & Herr & _ & _ & Hupdates).
  - intros err Hsome. discriminate Hsome.
  - split; [exact Herr | exact Hupdates].
Defined.

Lemma success_deploys_target_witness :
  ret_err (result_of (fake.perform fake.rollback fake.healthy)) = None /\
  targetRelease' (result_of (fake.perform fake.rollback fake.healthy)) =
  release.set_status fake.draft release.StatusDeployed /\
  currentRelease' (result_of (fake.perform fake.rollback fake.healthy)) =
  fake.current.
Proof.
  assert (Hok : ret_err (result_of (fake.perform fake.rollback fake.healthy))
                = None)
    by (vm_compute; reflexivity).
  split; [exact Hok|].
  destruct (success_deploys_target
              fake.rollback fake.current fake.draft
              (fake.world fake.healthy) eq_refl Hok)
    as (Htarget & Hcurrent & _).
  split; [exact Htarget | exact Hcurrent].
Defined.

(** * The differ: temporary directories, the diff command, the files of a
      result *)

Section Diffutil.

Import diffutil.

Context {W : Type}.
Context {os : OS W}.
Context {Obj : Type}.
Context {yaml : Yaml Obj}.

Lemma orderly_stop (expected : list string) (err : error) (w : W) :
  orderly expected (Some err, w, []).
Proof.
  exists 0%nat, []. cbn.
  split; [lia|]. split; [reflexivity|]. split; [discriminate|].
  split; [constructor|]. split; [constructor|]. left. reflexivity.
Qed.

Lemma orderly_done (w : W) : orderly [] (None, w, []).
Proof.
  exists 0%nat, []. cbn.
  split; [lia|]. split; [reflexivity|]. split; [reflexivity|].
  split; [constructor|]. split; [constructor|]. left. reflexivity.
Qed.

Lemma orderly_write (name : string) (data : Bytes) (w : W) :
  orderly [name] (os_WriteFile name data file_perm w).
Proof.
  unfold os_WriteFile, call. destruct (WriteFile name data file_perm w)
    as [[err|] w'].
  - exists 1%nat, []. cbn.
    split; [lia|]. split; [reflexivity|]. split; [discriminate|].
    split; [constructor; [|constructor]|].
    { exists name, data, (Some err). reflexivity. }
    split; [constructor|].
    right. exists (CWriteFile name data file_perm (Some err)), err.
    split; [reflexivity|]. split; reflexivity.
  - exists 1%nat, [CWriteFile name data file_perm None]. cbn.
    split; [lia|]. split; [reflexivity|]. split; [reflexivity|].
    split; [constructor; [|constructor]|].
    { exists name, data, None. reflexivity. }
    split; [constructor; [reflexivity|constructor]|].
    left. reflexivity.
Qed.

Lemma orderly_length (expected : list string)
      (x : option error * W * list OsCall) :
  orderly expected x -> (List.length (calls_of x) <= List.length expected)%nat.
Proof.
  intros (k & good & Hk & Hw & _).
  apply (f_equal (@List.length _)) in Hw.
  rewrite !length_map, length_firstn in Hw. lia.
Qed.

Lemma orderly_and_then (e1 e2 : list string) (m k : M W (option error))
      (w : W) :
  orderly e1 (m w) ->
  (forall w', orderly e2 (k w')) ->
  orderly (e1 ++ e2) (and_then m k w).
Proof.
  intros (k1 & good1 & Hk1 & Hw1 & Hn1 & Hf1 & Hg1 & Hc1) Hk.
  unfold and_then, bind, ret.
  destruct (m w) as [[[err|] w1] t1]; unfold result_of, calls_of in *;
    cbv beta iota zeta; cbn [fst snd] in *.
  - exists k1, good1. unfold result_of, calls_of. cbn [fst snd]. rewrite app_nil_r, length_app.
    split; [lia|]. split.
    { rewrite Hw1, firstn_app.
      replace (k1 - List.length e1)%nat with 0%nat by lia.
      cbn [firstn]. rewrite app_nil_r. reflexivity. }
    split; [discriminate|]. split; [exact Hf1|]. split; [exact Hg1|].
    exact Hc1.
  - specialize (Hn1 eq_refl). subst k1.
    assert (Ht1 : t1 = good1).
    { destruct Hc1 as [H | (c & err & _ & _ & H)];
        [exact H | discriminate H]. }
    subst t1.
    destruct (Hk w1) as (k2 & good2 & Hk2 & Hw2 & Hn2 & Hf2 & Hg2 & Hc2).
    destruct (k w1) as [[e w2] t2]; unfold result_of, calls_of in *;
      cbn [fst snd] in *.
    exists (List.length e1 + k2)%nat, (good1 ++ good2)%list.
    unfold result_of, calls_of. cbn [fst snd].
    rewrite length_app. split; [lia|]. split.
    { rewrite map_app, Hw1, Hw2, firstn_all, firstn_app_2, map_app.
      reflexivity. }
    split; [intros He; rewrite (Hn2 He); reflexivity|].
    split; [apply Forall_app; split; assumption|].
    split; [apply Forall_app; split; assumption|].
    destruct Hc2 as [-> | (c & err & -> & Hfail & Hres)].
    + left. reflexivity.
    + right. exists c, err. rewrite app_assoc. repeat split; assumption.
Qed.

Lemma range_Created_orderly (differ : Differ) (infos : list (Info Obj))
      (w : W) :
  orderly (map (new_file differ) infos) (range_Created differ infos w).
Proof.
  revert w. induction infos as [|info rest IH]; intros w.
  - apply orderly_done.
  - cbn [range_Created map]. destruct (Marshal (Object info)) as [b|err].
    + apply (orderly_and_then [new_file differ info]); [|exact IH].
      apply orderly_write.
    + apply orderly_stop.
Qed.

Lemma range_Deleted_orderly (differ : Differ) (infos : list (Info Obj))
      (w : W) :
  orderly (map (old_file differ) infos) (range_Deleted differ infos w).
Proof.
  revert w. induction infos as [|info rest IH]; intros w.
  - apply orderly_done.
  - cbn [range_Deleted map]. destruct (Marshal (Object info)) as [b|err].
    + apply (orderly_and_then [old_file differ info]); [|exact IH].
      apply orderly_write.
    + apply orderly_stop.
Qed.

Lemma range_Updated_orderly (differ : Differ) (live : N -> option Obj)
      (infos : list (Info Obj)) (w : W) :
  orderly (flat_map (fun info => [new_file differ info; old_file differ info])
                    infos)
          (range_Updated differ live infos w).
Proof.
  revert w. induction infos as [|info rest IH]; intros w.
  - apply orderly_done.
  - cbn [range_Updated flat_map].
    destruct (live (addr info)) as [old|]; [|apply orderly_stop].
    destruct (Marshal old) as [bOld|err]; [|apply orderly_stop].
    destruct (Marshal (Object info)) as [bNew|err]; [|apply orderly_stop].
    apply (orderly_and_then [new_file differ info]); [apply orderly_write|].
    intros w1.
    apply (orderly_and_then [old_file differ info]); [apply orderly_write|].
    exact IH.
Qed.

Lemma WriteKubeResult_orderly (differ : Differ) (result : Result Obj)
      (w : W) :
  orderly (files_of differ result) (WriteKubeResult differ result w).
Proof.
  unfold WriteKubeResult, files_of.
  apply orderly_and_then; [apply range_Created_orderly|]. intros w1.
  apply orderly_and_then; [apply range_Updated_orderly|]. intros w2.
  apply range_Deleted_orderly.
Qed.

Lemma range_Updated_missing (differ : Differ) (live : N -> option Obj)
      (infos : list (Info Obj)) (info : Info Obj) (w : W) :
  In info infos ->
  live (addr info) = None ->
  result_of (range_Updated differ live infos w) <> None /\
  (List.length (calls_of (range_Updated differ live infos w))
   < 2 * List.length infos)%nat.
Proof.
  intros Hin Hnone. revert w.
  induction infos as [|head rest IH]; intros w; [destruct Hin|].
  cbn [range_Updated].
  destruct (live (addr head)) as [old|] eqn:Hlive;
    [|cbn; split; [discriminate | lia]].
  destruct Hin as [-> | Hin]; [congruence|]. specialize (IH Hin).
  assert (Hrest : (1 <= List.length rest)%nat)
    by (destruct rest; [destruct Hin | cbn; lia]).
  destruct (Marshal old) as [bOld|err]; [|cbn; split; [discriminate | lia]].
  destruct (Marshal (Object head)) as [bNew|err];
    [|cbn; split; [discriminate | lia]].
  unfold and_then, bind, ret, WriteNew, WriteOld, os_WriteFile, call,
    result_of, calls_of in *.
  cbn [subdirs].
  destruct (WriteFile _ bNew file_perm w) as [[err|] w1];
    [cbn; split; [discriminate | lia]|].
  destruct (WriteFile _ bOld file_perm w1) as [[err|] w2];
    [cbn; split; [discriminate | lia]|].
  specialize (IH w2).
  destruct (range_Updated differ live rest w2) as [[e w3] t].
  cbn [fst snd] in *. destruct IH as [He Ht]. cbn.
  rewrite ?length_app. cbn. split; [exact He | lia].
Qed.


(** X23.  A write that fails ends [WriteKubeResult]: it is the last call, every
    call before it went through, and its error is returned. *)
Theorem WriteKubeResult_stops_at_first_error
        (differ : Differ) (result : Result Obj) (w : W)
        (c : OsCall) (err : error) :
  let x := WriteKubeResult differ result w in
  In c (calls_of x) ->
  failure c = Some err ->
  result_of x = Some err /\
  exists before,
    calls_of x = (before ++ [c])%list /\
    Forall (fun c => failure c = None) before.
Proof.
  intros x Hin Hfail.
  destruct (WriteKubeResult_orderly differ result w)
    as (k & good & _ & _ & _ & _ & Hgood & Hcalls).
  fold x in Hcalls. rewrite Forall_forall in Hgood.
  destruct Hcalls as [Hall | (c' & err' & Hall & Hfail' & Hres)].
  - rewrite Hall in Hin. apply Hgood in Hin. congruence.
  - rewrite Hall in Hin. apply in_app_or in Hin.
    destruct Hin as [Hin | [<- | []]].
    + apply Hgood in Hin. congruence.
    + split; [congruence|]. exists good. split; [exact Hall|].
      apply Forall_forall. exact Hgood.
Qed.

(** X24.  An updated resource without its live version makes [WriteKubeResult]
    fail: it returns an error and stops before the end of the updated
    resources, so that nothing of what was deleted is written. *)
Theorem WriteKubeResult_needs_live_versions
        (differ : Differ) (result : Result Obj) (w : W) (info : Info Obj) :
  let x := WriteKubeResult differ result w in
  In info (Updated result) ->
  LiveBeforeUpdate result (addr info) = None ->
  result_of x <> None /\
  (List.length (calls_of x)
   < List.length (Created result) + 2 * List.length (Updated result))%nat.
Proof.
  intros x Hin Hnone. subst x. unfold WriteKubeResult.
  pose proof (orderly_length _ _ (range_Created_orderly
                                    differ (Created result) w)) as Hc.
  rewrite length_map in Hc.
  assert (Hu : (1 <= List.length (Updated result))%nat)
    by (destruct (Updated result); [destruct Hin | cbn; lia]).
  unfold and_then, bind, ret, result_of, calls_of in *.
  destruct (range_Created differ (Created result) w) as [[[err|] w1] tc];
    cbv beta iota zeta; cbn [fst snd] in *.
  - rewrite app_nil_r. split; [discriminate | lia].
  - pose proof (range_Updated_missing
                  differ (LiveBeforeUpdate result) (Updated result) info w1
                  Hin Hnone) as [He Ht].
    unfold result_of, calls_of in He, Ht.
    destruct (range_Updated differ (LiveBeforeUpdate result)
                            (Updated result) w1) as [[[err|] w2] tu];
      cbv beta iota zeta; cbn [fst snd] in *; [|now destruct He].
    rewrite ?length_app. cbn. split; [discriminate | lia].
Qed.

Lemma NewDiffer_calls (w : W) (differ : Differ) :
  result_of (NewDiffer w) = inl differ ->
  calls_of (NewDiffer w) =
  [CMkdirTemp "" "diff-*" (inl (tmpdir differ));
   CMkdirAll (fst (subdirs differ)) dir_perm None;
   CMkdirAll (snd (subdirs differ)) dir_perm None].
Proof.
  unfold NewDiffer, bind, ret, os_MkdirTemp, os_MkdirAll, call, result_of,
    calls_of.
  destruct (MkdirTemp "" "diff-*" w) as [[tmp|err] w1]; cbn;
    [|discriminate].
  destruct (MkdirAll (filepath_Join tmp "old") dir_perm w1) as [[err|] w2];
    cbn; [discriminate|].
  destruct (MkdirAll (filepath_Join tmp "new") dir_perm w2) as [[err|] w3];
    cbn; [discriminate|].
  intros [= <-]. reflexivity.
Qed.

(** X25.  A differ that [NewDiffer] returns was made with three calls: the
    temporary directory, then its subdirectories for the old and for the
    new contents, with the permissions 0700. *)
Theorem NewDiffer_creates_directories (w : W) (differ : Differ) :
  result_of (NewDiffer w) = inl differ ->
  calls_of (NewDiffer w) =
  [CMkdirTemp "" "diff-*" (inl (tmpdir differ));
   CMkdirAll (fst (subdirs differ)) dir_perm None;
   CMkdirAll (snd (subdirs differ)) dir_perm None].
Proof.
  unfold NewDiffer, bind, ret, os_MkdirTemp, os_MkdirAll, call, result_of,
    calls_of.
  destruct (MkdirTemp "" "diff-*" w) as [[tmp|err] w1]; cbn;
    [|discriminate].
  destruct (MkdirAll (filepath_Join tmp "old") dir_perm w1) as [[err|] w2];
    cbn; [discriminate|].
  destruct (MkdirAll (filepath_Join tmp "new") dir_perm w2) as [[err|] w3];
    cbn; [discriminate|].
  intros [= <-]. reflexivity.
Qed.

(** X26.  [NewDiffer] never removes anything: when it fails, with the error of
    its last call, what the calls before have created is left behind. *)
Theorem NewDiffer_failure_leaves_tmpdir (w : W) (err : error) :
  result_of (NewDiffer w) = inr err ->
  forallb (fun c => negb (is_RemoveAll c)) (calls_of (NewDiffer w)) = true /\
  exists before c,
    calls_of (NewDiffer w) = (before ++ [c])%list /\
    failure c = Some err /\
    Forall (fun c => failure c = None) before.
Proof.
  unfold NewDiffer, bind, ret, os_MkdirTemp, os_MkdirAll, call, result_of,
    calls_of.
  destruct (MkdirTemp "" "diff-*" w) as [[tmp|e0] w1]; cbn.
  2: { intros [= <-]. split; [reflexivity|].
       exists [], (CMkdirTemp "" "diff-*" (inr e0)).
       split; [reflexivity|]. split; [reflexivity | constructor]. }
  destruct (MkdirAll (filepath_Join tmp "old") dir_perm w1) as [[e1|] w2];
    cbn.
  { intros [= <-]. split; [reflexivity|].
    exists [CMkdirTemp "" "diff-*" (inl tmp)],
      (CMkdirAll (filepath_Join tmp "old") dir_perm (Some e1)).
    split; [reflexivity|]. split; [reflexivity|].
    constructor; [reflexivity | constructor]. }
  destruct (MkdirAll (filepath_Join tmp "new") dir_perm w2) as [[e2|] w3];
    cbn; [|discriminate].
  intros [= <-]. split; [reflexivity|].
  exists [CMkdirTemp "" "diff-*" (inl tmp);
          CMkdirAll (filepath_Join tmp "old") dir_perm None],
    (CMkdirAll (filepath_Join tmp "new") dir_perm (Some e2)).
  split; [reflexivity|]. split; [reflexivity|].
  constructor; [reflexivity|]. constructor; [reflexivity | constructor].
Qed.

(** X27.  [Cleanup] makes one call: it removes the directory that [MkdirTemp]
    gave to [NewDiffer], with all that is below, and returns what
    [RemoveAll] answers. *)
Theorem Cleanup_removes_what_NewDiffer_made (w w1 : W) (differ : Differ) :
  result_of (NewDiffer w) = inl differ ->
  In (CMkdirTemp "" "diff-*" (inl (tmpdir differ))) (calls_of (NewDiffer w)) /\
  Cleanup differ w1 =
  (fst (RemoveAll (tmpdir differ) w1), snd (RemoveAll (tmpdir differ) w1),
   [CRemoveAll (tmpdir differ) (fst (RemoveAll (tmpdir differ) w1))]).
Proof.
  intros Hnew. split.
  - rewrite (NewDiffer_calls w differ Hnew). left.
    reflexivity.
  - unfold Cleanup, os_RemoveAll, call.
    destruct (RemoveAll (tmpdir differ) w1). reflexivity.
Qed.

(** X28.  When [SHELL] is set, [Run] runs the command with that shell, on every
    system; the flag before the command is still the one of the system,
    [/C] on Windows and [-c] elsewhere.  The command is the prefix followed
    by the directory of the old and the directory of the new contents, and
    [Run] makes this one call and returns its error. *)
Theorem SHELL_overrides_shell_only
        (differ : Differ) (commandPrefix : string) (stdout stderr : Writer)
        (w : W) (sh : string) :
  Getenv "SHELL" w = sh ->
  sh <> "" ->
  calls_of (Run differ commandPrefix stdout stderr w) =
  [CRun sh
        [if (GOOS =? "windows")%string then "/C" else "-c";
         commandPrefix ++ " " ++ fst (subdirs differ) ++ " "
         ++ snd (subdirs differ)]
        stdout stderr
        (result_of (Run differ commandPrefix stdout stderr w))].
Proof.
  intros Henv Hset. unfold Run, cmd_Run, call, calls_of, result_of.
  rewrite Henv. apply String.eqb_neq in Hset. rewrite Hset.
  destruct (GOOS =? "windows")%string; cbn [subdirs fst snd app];
    match goal with
    | |- context [Run_ ?s ?a ?o ?e ?w'] => destruct (Run_ s a o e w')
    end; reflexivity.
Qed.

End Diffutil.

(** * The differ on a file system in memory *)

Example WriteKubeResult_files :
  map fst
      (fakeos.files
         (diffutil.world_of
            (diffutil.WriteKubeResult fakeos.differ fakeos.result
                                      fakeos.empty))) =
  ["/tmp/diff-1/old/prod.old.apps.v1.Deployment.yaml";
   "/tmp/diff-1/old/prod.db.apps.v1.StatefulSet.yaml";
   "/tmp/diff-1/new/prod.db.apps.v1.StatefulSet.yaml";
   "/tmp/diff-1/new/prod.web.apps.v1.Deployment.yaml"].
Proof. reflexivity. Qed.

Lemma WriteKubeResult_stops_at_first_error_witness :
  In (diffutil.CWriteFile
        "/tmp/diff-1/new/prod.web.apps.v1.Deployment.yaml"
        "kind: Deployment" diffutil.file_perm (Some "read-only file system"))
     (diffutil.calls_of
        (diffutil.WriteKubeResult fakeos.differ fakeos.result fakeos.locked))
  /\
  diffutil.result_of
    (diffutil.WriteKubeResult fakeos.differ fakeos.result fakeos.locked) =
  Some "read-only file system".
Proof.
  assert (Hin : In (diffutil.CWriteFile
                      "/tmp/diff-1/new/prod.web.apps.v1.Deployment.yaml"
                      "kind: Deployment" diffutil.file_perm
                      (Some "read-only file system"))
                   (diffutil.calls_of
                      (diffutil.WriteKubeResult fakeos.differ fakeos.result
                                                fakeos.locked)))
    by (vm_compute; left; reflexivity).
  split; [exact Hin|].
  exact (proj1 (WriteKubeResult_stops_at_first_error
                  fakeos.differ fakeos.result fakeos.locked _
                  "read-only file system" Hin eq_refl)).
Defined.

Lemma WriteKubeResult_needs_live_versions_witness :
  In (fakeos.info 2 "db" "StatefulSet")
     (diffutil.Updated fakeos.result_without_live) /\
  diffutil.LiveBeforeUpdate fakeos.result_without_live 2%N = None /\
  diffutil.result_of
    (diffutil.WriteKubeResult fakeos.differ fakeos.result_without_live
                              fakeos.empty) <> None.
Proof.
  assert (Hin : In (fakeos.info 2 "db" "StatefulSet")
                   (diffutil.Updated fakeos.result_without_live))
    by (left; reflexivity).
  split; [exact Hin|]. split; [reflexivity|].
  exact (proj1 (WriteKubeResult_needs_live_versions
                  fakeos.differ fakeos.result_without_live fakeos.empty
                  _ Hin eq_refl)).
Defined.

Lemma NewDiffer_creates_directories_witness :
  diffutil.result_of (diffutil.NewDiffer fakeos.empty) = inl fakeos.differ /\
  diffutil.calls_of (diffutil.NewDiffer fakeos.empty) =
  [diffutil.CMkdirTemp "" "diff-*" (inl "/tmp/diff-1");
   diffutil.CMkdirAll "/tmp/diff-1/old" 448 None;
   diffutil.CMkdirAll "/tmp/diff-1/new" 448 None].
Proof.
  assert (Hnew : diffutil.result_of (diffutil.NewDiffer fakeos.empty) =
                 inl fakeos.differ) by reflexivity.
  split; [exact Hnew|].
  exact (NewDiffer_creates_directories fakeos.empty fakeos.differ Hnew).
Defined.

Lemma NewDiffer_failure_leaves_tmpdir_witness :
  diffutil.result_of (diffutil.NewDiffer fakeos.locked) =
  inr "read-only file system" /\
  forallb (fun c => negb (diffutil.is_RemoveAll c))
          (diffutil.calls_of (diffutil.NewDiffer fakeos.locked)) = true.
Proof.
  assert (Hnew : diffutil.result_of (diffutil.NewDiffer fakeos.locked) =
                 inr "read-only file system") by reflexivity.
  split; [exact Hnew|].
  exact (proj1 (NewDiffer_failure_leaves_tmpdir
                  fakeos.locked "read-only file system" Hnew)).
Defined.

Lemma Cleanup_removes_what_NewDiffer_made_witness :
  diffutil.result_of (diffutil.NewDiffer fakeos.empty) = inl fakeos.differ /\
  diffutil.calls_of (diffutil.Cleanup fakeos.differ fakeos.empty) =
  [diffutil.CRemoveAll "/tmp/diff-1" None].
Proof.
  assert (Hnew : diffutil.result_of (diffutil.NewDiffer fakeos.empty) =
                 inl fakeos.differ) by reflexivity.
  split; [exact Hnew|].
  destruct (Cleanup_removes_what_NewDiffer_made
              fakeos.empty fakeos.empty fakeos.differ Hnew)
    as [_ Hclean].
  rewrite Hclean. reflexivity.
Defined.

Lemma SHELL_overrides_shell_only_witness :
  diffutil.Getenv "SHELL" fakeos.with_bash = "/bin/bash" /\
  diffutil.calls_of
    (diffutil.Run fakeos.differ "diff -u" "stdout" "stderr" fakeos.with_bash) =
  [diffutil.CRun "/bin/bash"
                 ["-c"; "diff -u /tmp/diff-1/old /tmp/diff-1/new"]
                 "stdout" "stderr" None].
Proof.
  assert (Henv : diffutil.Getenv "SHELL" fakeos.with_bash = "/bin/bash")
    by reflexivity.
  split; [exact Henv|].
  refine (SHELL_overrides_shell_only
            fakeos.differ "diff -u" "stdout" "stderr" fakeos.with_bash
            "/bin/bash" Henv _).
  discriminate.
Defined.
